(** * Verification of the med-plastic-bot Telegram bot (Python)

    Shallow embedding of the parts of the bot that drive the
    consultation-booking dialogue, the question answering with its
    fallbacks, the message splitting and truncation helpers, the
    retrying sender, the update dispatch and the persistence schema.

    Python strings are modelled as lists of Unicode code points
    ([pystr]), so that [len] is [length]. *)

From Stdlib Require Import String Ascii.
From Stdlib Require Import List ZArith Bool Lia.
Import ListNotations.
Open Scope Z_scope.

(* ------------------------------------------------------------------ *)
(** ** Python strings *)

Definition pystr := list Z.

(** Decoding of UTF-8 bytes to code points, used to write the Python
    string literals of the source (Cyrillic text, emoji) in Rocq. *)
Fixpoint utf8_decode (l : list Z) : pystr :=
  match l with
  | [] => []
  | b :: r =>
      if b <? 128 then b :: utf8_decode r
      else if b <? 224 then
        match r with
        | b2 :: r' => ((b - 192) * 64 + (b2 - 128)) :: utf8_decode r'
        | [] => []
        end
      else if b <? 240 then
        match r with
        | b2 :: b3 :: r' =>
            ((b - 224) * 4096 + (b2 - 128) * 64 + (b3 - 128)) :: utf8_decode r'
        | _ => []
        end
      else
        match r with
        | b2 :: b3 :: b4 :: r' =>
            ((b - 240) * 262144 + (b2 - 128) * 4096 + (b3 - 128) * 64
             + (b4 - 128)) :: utf8_decode r'
        | _ => []
        end
  end.

Definition bytes_of (s : string) : list Z :=
  map (fun a => Z.of_nat (nat_of_ascii a)) (list_ascii_of_string s).

(** A Python string literal. *)
Definition u (s : string) : pystr := utf8_decode (bytes_of s).

Fixpoint pystr_eqb (a b : pystr) : bool :=
  match a, b with
  | [], [] => true
  | x :: a', y :: b' => (x =? y) && pystr_eqb a' b'
  | _, _ => false
  end.

(** [str.isspace] on one code point. *)
Definition is_space (c : Z) : bool :=
  ((9 <=? c) && (c <=? 13)) || ((28 <=? c) && (c <=? 32)) || (c =? 133)
  || (c =? 160) || (c =? 5760) || ((8192 <=? c) && (c <=? 8202))
  || (c =? 8232) || (c =? 8233) || (c =? 8239) || (c =? 8287)
  || (c =? 12288).

Fixpoint lstrip (s : pystr) : pystr :=
  match s with
  | c :: s' => if is_space c then lstrip s' else s
  | [] => []
  end.

(** [str.strip()] *)
Definition py_strip (s : pystr) : pystr := rev (lstrip (rev (lstrip s))).

(** [str.split()] without argument: runs of whitespace separate,
    empty fields are dropped. *)
Fixpoint split_ws_aux (s cur : pystr) : list pystr :=
  match s with
  | [] => match cur with [] => [] | _ => [rev cur] end
  | c :: s' =>
      if is_space c then
        match cur with
        | [] => split_ws_aux s' []
        | _ => rev cur :: split_ws_aux s' []
        end
      else split_ws_aux s' (c :: cur)
  end.

Definition py_split_ws (s : pystr) : list pystr := split_ws_aux s [].

Fixpoint prefixb (p s : pystr) : bool :=
  match p, s with
  | [], _ => true
  | x :: p', y :: s' => (x =? y) && prefixb p' s'
  | _ :: _, [] => false
  end.

(** [s.split(sep)] for a non-empty separator. *)
Fixpoint split_sep_aux (fuel : nat) (sep s cur : pystr) : list pystr :=
  match fuel with
  | O => [rev cur ++ s]
  | S f =>
      match s with
      | [] => [rev cur]
      | c :: s' =>
          if prefixb sep s
          then rev cur :: split_sep_aux f sep (skipn (length sep) s) []
          else split_sep_aux f sep s' (c :: cur)
      end
  end.

Definition py_split (sep s : pystr) : list pystr :=
  split_sep_aux (S (length s)) sep s [].

(** [sub in s] *)
Fixpoint py_contains (sub s : pystr) : bool :=
  match s with
  | [] => prefixb sub []
  | _ :: s' => prefixb sub s || py_contains sub s'
  end.

(** [s.endswith(x)] *)
Definition py_endswith (s x : pystr) : bool := prefixb (rev x) (rev s).



(** [" " if s else ""]: the separator put in front of a non-empty
    accumulator. *)
Definition sep_if (cur sep : pystr) : pystr :=
  match cur with [] => [] | _ => sep end.

(* ------------------------------------------------------------------ *)
(** ** utils/message_splitter.py *)

Section SplitMessage.

Variable max_length : nat.

(** [while len(word) > max_length: parts.append(word[:max_length]);
    word = word[max_length:]] *)
Fixpoint cut_word (fuel : nat) (parts : list pystr) (word : pystr)
  : list pystr * pystr :=
  match fuel with
  | O => (parts, word)
  | S f =>
      if (max_length <? length word)%nat
      then cut_word f (parts ++ [firstn max_length word]) (skipn max_length word)
      else (parts, word)
  end.

(** One iteration of [for word in words] (state: parts, temp_sentence). *)
Definition word_step (acc : list pystr * pystr) (word : pystr)
  : list pystr * pystr :=
  let '(parts, temp) := acc in
  if (max_length <? length temp + length word + 1)%nat then
    match temp with
    | _ :: _ => (parts ++ [py_strip temp], word)
    | [] => cut_word (S (length word)) parts word
    end
  else (parts, temp ++ sep_if temp [32] ++ word).

(** One iteration of [for sentence in sentences]
    (state: parts, current_part). *)
Definition sentence_step (acc : list pystr * pystr) (sentence0 : pystr)
  : list pystr * pystr :=
  let '(parts, cur) := acc in
  match py_strip sentence0 with
  | [] => acc
  | s =>
      let sentence := if py_endswith s [46] then s else s ++ [46] in
      if (max_length <? length cur + length sentence + 2)%nat then
        match cur with
        | _ :: _ => (parts ++ [py_strip cur], sentence)
        | [] => fold_left word_step (py_split_ws sentence) (parts, [])
        end
      else (parts, cur ++ sep_if cur [32] ++ sentence)
  end.

(** One iteration of [for paragraph in paragraphs]. *)
Definition paragraph_step (acc : list pystr * pystr) (paragraph : pystr)
  : list pystr * pystr :=
  let '(parts, cur) := acc in
  if (max_length <? length paragraph)%nat then
    fold_left sentence_step (py_split [46; 32] paragraph) acc
  else if (max_length <? length cur + length paragraph + 2)%nat then
    match cur with
    | _ :: _ => (parts ++ [py_strip cur], paragraph)
    | [] => (parts ++ [firstn max_length paragraph], skipn max_length paragraph)
    end
  else (parts, cur ++ sep_if cur [10; 10] ++ paragraph).

Definition split_message (text : pystr) : list pystr :=
  if (length text <=? max_length)%nat then [text]
  else
    let '(parts, cur) := fold_left paragraph_step (py_split [10; 10] text) ([], []) in
    match cur with
    | [] => parts
    | _ => parts ++ [py_strip cur]
    end.

End SplitMessage.

(** The suffix [truncate_message] appends after cutting. *)
Definition truncation_note : pystr :=
  u "...

(ответ сокращен для отображения в Telegram)".



(** [str.lower] on the capitals A-Z, U+00C0-U+00DE, U+0391-U+03AB and
    U+0400-U+042F (Latin, Latin-1, Greek and Cyrillic, the scripts of the
    bot's texts); other code points are left as they are. *)
Definition lower_char (c : Z) : Z :=
  if (65 <=? c) && (c <=? 90) then c + 32
  else if (192 <=? c) && (c <=? 222) && negb (c =? 215) then c + 32
  else if (913 <=? c) && (c <=? 939) && negb (c =? 930) then c + 32
  else if (1024 <=? c) && (c <=? 1039) then c + 80
  else if (1040 <=? c) && (c <=? 1071) then c + 32
  else c.

Definition py_lower (s : pystr) : pystr := map lower_char s.

(** First code points of the blocks of ten Unicode decimal digits
    (category Nd, Unicode 14), the characters [\d] matches in a [str]
    pattern and whose value [int] reads. *)
Definition decimal_blocks : list Z :=
  [48; 1632; 1776; 1984; 2406; 2534; 2662; 2790; 2918; 3046; 3174; 3302;
   3430; 3558; 3664; 3792; 3872; 4160; 4240; 6112; 6160; 6470; 6608; 6784;
   6800; 6992; 7088; 7232; 7248; 42528; 43216; 43264; 43472; 43504; 43600;
   44016; 65296; 66720; 68912; 69734; 69872; 69942; 70096; 70384; 70736;
   70864; 71248; 71360; 71472; 71904; 72016; 72784; 73040; 73120; 92768;
   92864; 93008; 120782; 120792; 120802; 120812; 120822; 123200; 123632;
   125264; 130032].

Fixpoint decimal_value_in (bs : list Z) (c : Z) : option Z :=
  match bs with
  | [] => None
  | b :: bs' => if (b <=? c) && (c <? b + 10) then Some (c - b)
                else decimal_value_in bs' c
  end.

Definition decimal_value (c : Z) : option Z := decimal_value_in decimal_blocks c.

(** [\d] *)
Definition is_decimal (c : Z) : bool :=
  match decimal_value c with Some _ => true | None => false end.

(* ------------------------------------------------------------------ *)
(** ** states/consultation.py and the FSM storage *)

Inductive ConsultationStates :=
| choosing_service
| entering_name
| entering_phone
| entering_date
| entering_comment.

Record date := mkdate { year : Z; month : Z; day : Z }.

(** The data dict of [FSMContext]; a missing key is [None].
    [fd_preferred_date] holds the Python value stored under
    [preferred_date], itself [None] or a date. *)
Record form_data := mkform {
  fd_service_id : option Z;
  fd_service_name : option pystr;
  fd_name : option pystr;
  fd_phone : option pystr;
  fd_preferred_date : option (option date);
  fd_date_input : option pystr;
  fd_comment : option pystr
}.

Definition empty_data : form_data :=
  mkform None None None None None None None.

(** Per-user FSM storage: the state cursor ([None] when no state is set)
    and the data dict. *)
Record fsm := mkfsm { cursor : option ConsultationStates; data : form_data }.

(** [state.clear()] resets both. *)
Definition cleared : fsm := mkfsm None empty_data.

(** The messages the consultation handlers answer with. *)
Inductive reply :=
| RServiceNotFound
| RServiceSelected (service_name : pystr)
| RNameTooShort
| RAskPhone (name : pystr)
| RPhoneInvalid
| RAskDate
| RDateInvalid
| RAskComment
| RConfirmation (d : form_data)
| RRequestError
| RServiceList
| RNoServices.

(** A row of [consultation_requests] written by [confirm_request]. *)
Record ConsultationRequest := mkrequest {
  cr_service_id : Z;
  cr_name : pystr;
  cr_phone : pystr;
  cr_preferred_date : option date;
  cr_comment : pystr;
  cr_status : pystr
}.

(* ------------------------------------------------------------------ *)
(** ** handlers/consultation_handlers.py *)

(** [select_service]: [services] is the lookup [ServiceRepository.get_by_id]
    (the service name, or [None]). No state filter is attached. *)
Definition select_service (services : Z -> option pystr) (service_id : Z)
  (s : fsm) : fsm * list reply :=
  match services service_id with
  | None => (s, [RServiceNotFound])
  | Some nm =>
      let d := data s in
      (mkfsm (Some entering_name)
         (mkform (Some service_id) (Some nm) (fd_name d) (fd_phone d)
            (fd_preferred_date d) (fd_date_input d) (fd_comment d)),
       [RServiceSelected nm])
  end.

Definition process_name (s : fsm) (text : pystr) : fsm * list reply :=
  let name := py_strip text in
  if (length name <? 2)%nat then (s, [RNameTooShort])
  else
    let d := data s in
    (mkfsm (Some entering_phone)
       (mkform (fd_service_id d) (fd_service_name d) (Some name) (fd_phone d)
          (fd_preferred_date d) (fd_date_input d) (fd_comment d)),
     [RAskPhone name]).

(** [phone.replace(' ', '').replace('-', '').replace('(', '').replace(')', '')] *)
Definition remove_seps (s : pystr) : pystr :=
  filter (fun c => negb ((c =? 32) || (c =? 45) || (c =? 40) || (c =? 41))) s.

(** [\d{10}$]: ten decimal digits, then the end of the string or a final
    newline (Python's [$] without MULTILINE). *)
Definition ten_digits_end (r : pystr) : bool :=
  ((length r =? 10)%nat && forallb is_decimal r)
  || ((length r =? 11)%nat && forallb is_decimal (firstn 10 r)
      && (nth 10 r 0 =? 10)).

(** [re.match(r'^(\+7|8)\d{10}$', s)] *)
Definition phone_re_match (s : pystr) : bool :=
  match s with
  | 43 :: 55 :: r => ten_digits_end r
  | 56 :: r => ten_digits_end r
  | _ => false
  end.

Definition process_phone (s : fsm) (text : pystr) : fsm * list reply :=
  let phone := py_strip text in
  if negb (phone_re_match (remove_seps phone)) then (s, [RPhoneInvalid])
  else
    let phone := match phone with
                 | 56 :: rest => [43; 55] ++ rest
                 | _ => phone
                 end in
    let d := data s in
    (mkfsm (Some entering_date)
       (mkform (fd_service_id d) (fd_service_name d) (fd_name d) (Some phone)
          (fd_preferred_date d) (fd_date_input d) (fd_comment d)),
     [RAskDate]).


(** *** [datetime.strptime] for the four formats of [process_date]

    [_strptime] turns a format into a regular expression ([%d] becomes
    [3[0-1]|[1-2]\d|0[1-9]|[1-9]| [1-9]], [%m] becomes
    [1[0-2]|0[1-9]|[1-9]], [%Y] becomes [\d\d\d\d], [%y] becomes [\d\d],
    other characters match themselves), takes the first match at the start
    of the string, fails with ValueError when text remains after it, reads
    the fields with [int] ([%y] below 69 is 20yy, else 19yy) and fails with
    ValueError when [date(year, month, day)] is not a valid date. *)
Inductive directive := Dd | Dm | DY | Dy | DLit (c : Z).

Record parsed := mkparsed { p_day : Z; p_month : Z; p_year : Z }.

Definition set_day (p : parsed) (v : Z) := mkparsed v (p_month p) (p_year p).
Definition set_month (p : parsed) (v : Z) := mkparsed (p_day p) v (p_year p).
Definition set_year (p : parsed) (v : Z) := mkparsed (p_day p) (p_month p) v.

Definition is_ascii_1_9 (c : Z) : bool := (49 <=? c) && (c <=? 57).

(** The ways one directive can match at the front of [s], in the order
    the alternatives of its regular expression are tried. *)
Definition alts (d : directive) (s : pystr) (p : parsed) : list (parsed * pystr) :=
  match d with
  | Dd =>
      (match s with
       | 51 :: c :: r => if (c =? 48) || (c =? 49) then [(set_day p (30 + (c - 48)), r)] else []
       | _ => [] end) ++
      (match s with
       | c1 :: c2 :: r =>
           if (c1 =? 49) || (c1 =? 50) then
             match decimal_value c2 with
             | Some v => [(set_day p (10 * (c1 - 48) + v), r)]
             | None => []
             end
           else []
       | _ => [] end) ++
      (match s with
       | 48 :: c :: r => if is_ascii_1_9 c then [(set_day p (c - 48), r)] else []
       | _ => [] end) ++
      (match s with
       | c :: r => if is_ascii_1_9 c then [(set_day p (c - 48), r)] else []
       | _ => [] end) ++
      (match s with
       | 32 :: c :: r => if is_ascii_1_9 c then [(set_day p (c - 48), r)] else []
       | _ => [] end)
  | Dm =>
      (match s with
       | 49 :: c :: r => if (48 <=? c) && (c <=? 50) then [(set_month p (10 + (c - 48)), r)] else []
       | _ => [] end) ++
      (match s with
       | 48 :: c :: r => if is_ascii_1_9 c then [(set_month p (c - 48), r)] else []
       | _ => [] end) ++
      (match s with
       | c :: r => if is_ascii_1_9 c then [(set_month p (c - 48), r)] else []
       | _ => [] end)
  | DY =>
      match s with
      | c1 :: c2 :: c3 :: c4 :: r =>
          match decimal_value c1, decimal_value c2, decimal_value c3, decimal_value c4 with
          | Some v1, Some v2, Some v3, Some v4 =>
              [(set_year p (1000 * v1 + 100 * v2 + 10 * v3 + v4), r)]
          | _, _, _, _ => []
          end
      | _ => []
      end
  | Dy =>
      match s with
      | c1 :: c2 :: r =>
          match decimal_value c1, decimal_value c2 with
          | Some v1, Some v2 =>
              let v := 10 * v1 + v2 in
              [(set_year p (if v <=? 68 then v + 2000 else v + 1900), r)]
          | _, _ => []
          end
      | _ => []
      end
  | DLit c =>
      match s with
      | c' :: r => if c' =? c then [(p, r)] else []
      | [] => []
      end
  end.

Fixpoint first_some {A : Type} (l : list (option A)) : option A :=
  match l with
  | [] => None
  | Some x :: _ => Some x
  | None :: l' => first_some l'
  end.

(** [format_regex.match(data_string)] with backtracking. *)
Fixpoint regex_match (fmt : list directive) (s : pystr) (p : parsed)
  : option (parsed * pystr) :=
  match fmt with
  | [] => Some (p, s)
  | d :: fmt' =>
      first_some (map (fun '(p', r) => regex_match fmt' r p') (alts d s p))
  end.

Definition is_leap (y : Z) : bool :=
  ((y mod 4 =? 0) && negb (y mod 100 =? 0)) || (y mod 400 =? 0).

Definition days_in_month (y m : Z) : Z :=
  if m =? 2 then (if is_leap y then 29 else 28)
  else if (m =? 4) || (m =? 6) || (m =? 9) || (m =? 11) then 30
  else 31.

Definition valid_date (p : parsed) : bool :=
  (1 <=? p_year p) && (p_year p <=? 9999) && (1 <=? p_month p)
  && (p_month p <=? 12) && (1 <=? p_day p)
  && (p_day p <=? days_in_month (p_year p) (p_month p)).

(** [datetime.strptime(s, fmt).date()]; [None] is the ValueError. *)
Definition strptime (fmt : list directive) (s : pystr) : option date :=
  match regex_match fmt s (mkparsed 1 1 1900) with
  | Some (p, []) =>
      if valid_date p then Some (mkdate (p_year p) (p_month p) (p_day p)) else None
  | _ => None
  end.

(** ['%d.%m.%Y', '%d.%m.%y', '%d-%m-%Y', '%d-%m-%y'] *)
Definition date_formats : list (list directive) :=
  [[Dd; DLit 46; Dm; DLit 46; DY]; [Dd; DLit 46; Dm; DLit 46; Dy];
   [Dd; DLit 45; Dm; DLit 45; DY]; [Dd; DLit 45; Dm; DLit 45; Dy]].

(** [a <= b] on [datetime.date]. *)
Definition date_leb (a b : date) : bool :=
  (year a <? year b)
  || ((year a =? year b) && ((month a <? month b)
      || ((month a =? month b) && (day a <=? day b)))).

(** The [for fmt in (...)] loop: the first format that parses to a date
    not before [today] ([break]); a format that fails or gives a past date
    is skipped ([continue] / fall through). *)
Fixpoint try_formats (today : date) (date_input : pystr)
  (fmts : list (list directive)) : option date :=
  match fmts with
  | [] => None
  | f :: fs =>
      match strptime f date_input with
      | Some d => if date_leb today d then Some d else try_formats today date_input fs
      | None => try_formats today date_input fs
      end
  end.

Definition any_time_phrases : list pystr :=
  [u "удобно в любое время"; u "любое время"; u "когда удобно"].

Definition accept_date (s : fsm) (pd : option date) (date_input : pystr)
  : fsm * list reply :=
  let d := data s in
  (mkfsm (Some entering_comment)
     (mkform (fd_service_id d) (fd_service_name d) (fd_name d) (fd_phone d)
        (Some pd) (Some date_input) (fd_comment d)),
   [RAskComment]).

(** [process_date]; [today] is [date.today()]. *)
Definition process_date (today : date) (s : fsm) (text : pystr) : fsm * list reply :=
  let date_input := py_strip text in
  if existsb (pystr_eqb (py_lower date_input)) any_time_phrases
  then accept_date s None date_input
  else match try_formats today date_input date_formats with
       | Some pd => accept_date s (Some pd) date_input
       | None => (s, [RDateInvalid])
       end.

(** The test [process_date] accepts a stripped input with: one of the
    any-time phrases, or a date one of the four formats parses. *)
Definition date_accepted (today : date) (date_input : pystr) : bool :=
  existsb (pystr_eqb (py_lower date_input)) any_time_phrases
  || match try_formats today date_input date_formats with
     | Some _ => true
     | None => false
     end.


(** [show_confirmation]: the f-string reads [data['name']],
    [data['phone']] and [data['service_name']]; a missing key raises
    KeyError and nothing is sent. The state is not changed. *)
Definition show_confirmation (s : fsm) : list reply :=
  match fd_name (data s), fd_phone (data s), fd_service_name (data s) with
  | Some _, Some _, Some _ => [RConfirmation (data s)]
  | _, _, _ => []
  end.

Definition set_comment (s : fsm) (c : pystr) : fsm :=
  let d := data s in
  mkfsm (cursor s)
    (mkform (fd_service_id d) (fd_service_name d) (fd_name d) (fd_phone d)
       (fd_preferred_date d) (fd_date_input d) (Some c)).

Definition skip_comment (s : fsm) : fsm * list reply :=
  let s' := set_comment s [] in (s', show_confirmation s').

Definition process_comment (s : fsm) (text : pystr) : fsm * list reply :=
  let s' := set_comment s (py_strip text) in (s', show_confirmation s').

(** [confirm_request]. [user_known]: [get_by_telegram_id] finds the user;
    otherwise [UserRepository.create] is called with a [phone] keyword it
    does not accept, and the TypeError lands in [except Exception].
    [db_ok]: the request row is written. A missing [data['service_id']],
    [data['name']] or [data['phone']] raises KeyError before the row is
    written. Once it is written, [state.clear()] runs, and then
    [callback.message.edit_text] is called with the [ReplyKeyboardMarkup]
    of [get_main_keyboard()] where aiogram only accepts an
    [InlineKeyboardMarkup]: it raises (as does a missing
    [data['service_name']] in the success text before it), so the chat
    log and the success answer are never reached and [except Exception]
    sends the error alert. Returns the new FSM storage, the answers and
    the request row written. *)
Definition confirm_request (user_known db_ok : bool) (s : fsm)
  : fsm * list reply * option ConsultationRequest :=
  let d := data s in
  if negb user_known then (s, [RRequestError], None)
  else
    match fd_service_id d, fd_name d, fd_phone d with
    | Some sid, Some nm, Some ph =>
        if db_ok then
          let req := mkrequest sid nm ph
                       (match fd_preferred_date d with Some pd => pd | None => None end)
                       (match fd_comment d with Some c => c | None => [] end)
                       (u "new") in
          (cleared, [RRequestError], Some req)
        else (s, [RRequestError], None)
    | _, _, _ => (s, [RRequestError], None)
    end.

(** [cancel_consultation]: [state.clear()], then [edit_text] with the
    [ReplyKeyboardMarkup] of [get_main_keyboard()], which raises (not
    caught): no answer is sent. *)
Definition cancel_consultation (s : fsm) : fsm * list reply :=
  (cleared, []).

(** [start_consultation]: [state.clear()], then the service list. *)
Definition start_consultation (services_nonempty : bool) (s : fsm)
  : fsm * list reply :=
  (cleared, [if services_nonempty then RServiceList else RNoServices]).

Definition skip_button : pystr := u "Пропустить".
Definition book_button : pystr := u "📅 Записаться на консультацию".

Definition cs_eqb (a b : ConsultationStates) : bool :=
  match a, b with
  | choosing_service, choosing_service | entering_name, entering_name
  | entering_phone, entering_phone | entering_date, entering_date
  | entering_comment, entering_comment => true
  | _, _ => false
  end.

(** The events the consultation router reacts to. *)
Inductive flow_event :=
| ECallbackService (service_id : Z)      (* callback data "service_<id>" *)
| EMessage (text : pystr)                (* a text message *)
| ECallbackConfirm (user_known db_ok : bool)  (* "confirm_request" *)
| ECallbackCancel.                       (* "cancel_consultation" *)

(** The message handlers of the consultation router in registration
    order, with their filters; [None] when none matches. *)
Definition consultation_message (today : date) (services_nonempty : bool)
  (s : fsm) (text : pystr) : option (fsm * list reply) :=
  match cursor s with
  | Some entering_name => Some (process_name s text)
  | Some entering_phone => Some (process_phone s text)
  | Some entering_date => Some (process_date today s text)
  | Some entering_comment =>
      if pystr_eqb text skip_button then Some (skip_comment s)
      else Some (process_comment s text)
  | _ =>
      if pystr_eqb text book_button
      then Some (start_consultation services_nonempty s) else None
  end.

(** One event handled by the consultation router (an unhandled event
    leaves the storage as it is). *)
Definition consult_step (services : Z -> option pystr) (today : date)
  (services_nonempty : bool) (s : fsm) (e : flow_event) : fsm * list reply :=
  match e with
  | ECallbackService sid => select_service services sid s
  | EMessage text =>
      match consultation_message today services_nonempty s text with
      | Some r => r
      | None => (s, [])
      end
  | ECallbackConfirm uk ok => let '(s', rs, _) := confirm_request uk ok s in (s', rs)
  | ECallbackCancel => cancel_consultation s
  end.

(** The successor of a state in the order name, phone, date, comment. *)
Definition advance (c : option ConsultationStates) : option ConsultationStates :=
  match c with
  | Some entering_name => Some entering_phone
  | Some entering_phone => Some entering_date
  | Some entering_date => Some entering_comment
  | c => c
  end.


(* ------------------------------------------------------------------ *)
(** ** services/openai_service.py: FallbackService *)

(** [FallbackService.faq_responses], in insertion order. *)
Definition faq_responses : list (pystr * list pystr) :=
  [(u "привет",
    [u "Здравствуйте! Рад помочь вам с вопросами о наших услугах. Что вас интересует?";
     u "Добрый день! Я здесь, чтобы рассказать о нашей клинике. Чем могу быть полезна?";
     u "Приветствую! Готова ответить на ваши вопросы о пластической хирургии."]);
   (u "понимаешь",
    [u "Да, я прекрасно понимаю вас! Я здесь, чтобы помочь и ответить на все вопросы.";
     u "Конечно, понимаю! Могу рассказать о наших услугах или ответить на другие вопросы.";
     u "Да, понимаю! Чем могу помочь сегодня?"]);
   (u "цена",
    [u "Стоимость зависит от конкретной процедуры и индивидуальных особенностей. Давайте обсудим на бесплатной консультации?";
     u "Цены варьируются в зависимости от объема работы. Могу предложить записаться на консультацию для точного расчета.";
     u "У нас индивидуальный подход к ценообразованию. Хотите узнать подробнее о конкретной услуге?"]);
   (u "риск",
    [u "Все процедуры проводятся опытными хирургами с минимизацией рисков. Расскажу подробнее на консультации!";
     u "Безопасность - наш приоритет. Используем современные методики с минимальными осложнениями.";
     u "Риски есть у любой процедуры, но мы их минимизируем благодаря опыту наших специалистов."]);
   (u "заразиться",
    [u "Инфекции крайне редки благодаря строгим стандартам стерильности и современному оборудованию. Наша клиника соответствует всем нормам безопасности.";
     u "Благодаря современным протоколам и стерильным условиям риск инфекции минимален. Мы уделяем этому особое внимание.";
     u "Инфекционные осложнения составляют менее 1% благодаря нашему опыту и современным методикам."]);
   (u "консультация",
    [u "Консультация у нас бесплатная! Запишитесь в удобное время, и врач все подробно расскажет.";
     u "Да, мы предлагаем бесплатную первичную консультацию. Когда вам было бы удобно прийти?";
     u "Консультация бесплатная и ни к чему не обязывает. Звоните для записи!"]);
   (u "длительность",
    [u "Процедура обычно занимает 1-2 часа в зависимости от сложности. Реабилитация короткая.";
     u "Время зависит от конкретной процедуры, но в среднем 1-2 часа. Хотите узнать подробнее?";
     u "Большинство процедур занимают до 2 часов. После потребуется неделя на восстановление."])].

Definition general_responses : list pystr :=
  [u "Это интересный вопрос! Лучше всего обсудить это лично на консультации с нашим специалистом.";
   u "Понимаю ваш интерес к этой теме. Могу предложить бесплатную консультацию для детальной информации.";
   u "Хороший вопрос! Для точной информации рекомендую консультацию с нашим врачом.";
   u "Давайте обсудим это на консультации? Специалист сможет дать исчерпывающую информацию."].

(** The first keyword of the table (in its order) that occurs in the
    lower-cased message, with its responses. *)
Fixpoint first_keyword (message_lower : pystr) (tbl : list (pystr * list pystr))
  : option (list pystr) :=
  match tbl with
  | [] => None
  | (keyword, responses) :: tbl' =>
      if py_contains keyword message_lower then Some responses
      else first_keyword message_lower tbl'
  end.

Section Fallback.

(** [random.choice] *)
Variable choice : list pystr -> pystr.

(** [FallbackService.get_fallback_response] *)
Definition get_fallback_response (message : pystr) : option pystr :=
  let message_lower := py_lower message in
  match first_keyword message_lower faq_responses with
  | Some responses => Some (choice responses)
  | None => Some (choice general_responses)
  end.

End Fallback.

(* ------------------------------------------------------------------ *)
(** ** handlers/basic_handlers.py: handle_text_message *)

(** The static reply hard-coded at the end of [handle_text_message]. *)
Definition apology_text : pystr :=
  u "Понимаю ваш вопрос. Чтобы дать вам точную информацию, " ++ [10] ++
  u "пожалуйста, выберите конкретную тему из главного меню или " ++ [10] ++
  u "свяжитесь с живым менеджером для детальной консультации.".

(** Truth value of an [Optional[str]]: [None] and [""] are false. *)
Definition truthy (r : option pystr) : bool :=
  match r with Some (_ :: _) => true | _ => false end.

(** The reply chosen by [handle_text_message]. [llm] is the value of
    [openai_service.generate_response], [None] when the call fails or
    returns nothing. *)
Definition question_response (choice : list pystr -> pystr)
  (llm : option pystr) (text : pystr) : pystr :=
  let response := llm in
  let response :=
    if truthy response then response else get_fallback_response choice text in
  let response := if truthy response then response else Some apology_text in
  match response with Some r => r | None => apology_text end.

(** What [handle_text_message] does, in order. *)
Inductive effect :=
| EGetUser                         (* user_repo.get_by_telegram_id *)
| ECreateUser                      (* user_repo.create *)
| EReadHistory                     (* chat_log_repo.get_user_logs *)
| EReadServices                    (* service_repo.get_all *)
| ELlmCall (prompt : pystr)        (* openai_service.generate_response *)
| EFallback (message : pystr)      (* fallback_service.get_fallback_response *)
| ESend (part : pystr)             (* message.answer *)
| EChatLog (message response : pystr). (* chat_log_repo.create *)

(** [handle_text_message]: [cur] is [await state.get_state()],
    [user_known] whether the user is in the database. *)
Definition handle_text_message (cur : option ConsultationStates)
  (user_known : bool) (llm : option pystr) (choice : list pystr -> pystr)
  (text : pystr) : list effect :=
  match cur with
  | Some _ => []
  | None =>
      let response := question_response choice llm text in
      [EGetUser] ++ (if user_known then [] else [ECreateUser]) ++
      [EReadHistory; EReadServices; ELlmCall text] ++
      (if truthy llm then [] else [EFallback text]) ++
      map ESend (split_message 4096 response) ++
      [EChatLog text response]
  end.

(* ------------------------------------------------------------------ *)
(** ** Update dispatch (main.py and aiogram's routers)

    [main.py] includes [basic_router], then [consultation_router]. For a
    message, aiogram tries the routers in that order and, in a router, the
    message handlers in registration order; the first handler whose filters
    pass is called, and its return value (also [None]) ends the
    propagation: only a [SkipHandler] exception or no matching handler
    passes the event on. *)

Definition btn_cancel_text : pystr := u "❌ Отмена".
Definition btn_main_menu_text : pystr := u "🔙 В главное меню".
Definition btn_service_info_text : pystr := u "📋 Узнать об услуге".
Definition btn_prices_text : pystr := u "💰 Цены".
Definition btn_contact_manager_text : pystr := u "👨‍💼 Связаться с менеджером".
Definition btn_faq_text : pystr := u "❓ Частые вопросы".
Definition btn_about_clinic_text : pystr := u "ℹ️ О клинике".

Inductive message_handler :=
| H_cmd_start | H_cmd_help | H_cmd_cancel | H_btn_cancel | H_btn_main_menu
| H_btn_service_info | H_btn_prices | H_btn_contact_manager | H_btn_faq
| H_btn_about_clinic | H_handle_text_message
| H_process_name | H_process_phone | H_process_date | H_skip_comment
| H_process_comment | H_start_consultation.

(** Message filters: [Command(name)] / [CommandStart()], [F.text == t],
    a state filter, a state filter with [F.text == t], no filter. *)
Inductive msg_filter :=
| FCommand (name : pystr)
| FText (t : pystr)
| FState (st : ConsultationStates)
| FStateText (st : ConsultationStates) (t : pystr)
| FAny.

Fixpoint take_until (c : Z) (s : pystr) : pystr :=
  match s with
  | [] => []
  | x :: s' => if x =? c then [] else x :: take_until c s'
  end.

(** [Command(name)]: the first word is ["/"] followed by [name],
    optionally followed by ["@"] and a mention (taken to be the bot's own
    user name). *)
Definition command_matches (name text : pystr) : bool :=
  match py_split_ws text with
  | (47 :: rest) :: _ => pystr_eqb (take_until 64 rest) name
  | _ => false
  end.

Definition state_is (c : option ConsultationStates) (st : ConsultationStates) : bool :=
  match c with Some c' => cs_eqb c' st | None => false end.

Definition filter_ok (c : option ConsultationStates) (text : pystr) (f : msg_filter) : bool :=
  match f with
  | FCommand name => command_matches name text
  | FText t => pystr_eqb text t
  | FState st => state_is c st
  | FStateText st t => state_is c st && pystr_eqb text t
  | FAny => true
  end.

Definition basic_router : list (msg_filter * message_handler) :=
  [(FCommand (u "start"), H_cmd_start);
   (FCommand (u "help"), H_cmd_help);
   (FCommand (u "cancel"), H_cmd_cancel);
   (FText btn_cancel_text, H_btn_cancel);
   (FText btn_main_menu_text, H_btn_main_menu);
   (FText btn_service_info_text, H_btn_service_info);
   (FText btn_prices_text, H_btn_prices);
   (FText btn_contact_manager_text, H_btn_contact_manager);
   (FText btn_faq_text, H_btn_faq);
   (FText btn_about_clinic_text, H_btn_about_clinic);
   (FAny, H_handle_text_message)].

Definition consultation_router : list (msg_filter * message_handler) :=
  [(FState entering_name, H_process_name);
   (FState entering_phone, H_process_phone);
   (FState entering_date, H_process_date);
   (FStateText entering_comment skip_button, H_skip_comment);
   (FState entering_comment, H_process_comment);
   (FText book_button, H_start_consultation)].

Fixpoint first_handler (c : option ConsultationStates) (text : pystr)
  (hs : list (msg_filter * message_handler)) : option message_handler :=
  match hs with
  | [] => None
  | (f, h) :: hs' => if filter_ok c text f then Some h else first_handler c text hs'
  end.

Fixpoint dispatch_in (routers : list (list (msg_filter * message_handler)))
  (c : option ConsultationStates) (text : pystr) : option message_handler :=
  match routers with
  | [] => None
  | r :: rs =>
      match first_handler c text r with
      | Some h => Some h
      | None => dispatch_in rs c text
      end
  end.

(** [dp.include_router(basic_router); dp.include_router(consultation_router)] *)
Definition dispatch_message (c : option ConsultationStates) (text : pystr)
  : option message_handler :=
  dispatch_in [basic_router; consultation_router] c text.


(* ------------------------------------------------------------------ *)
(** ** utils/message_handler.py: safe_send_message *)

(** The outcome of one [message.answer] call. *)
Inductive send_outcome :=
| Sent
| RetryAfterErr (retry_after : nat)   (* TelegramRetryAfter *)
| NetworkErr                          (* TelegramNetworkError *)
| BadRequestErr (msg : pystr)         (* TelegramBadRequest, with str(e) *)
| OtherErr.                           (* any other exception *)

Inductive send_event :=
| SendAnswer (text : pystr)           (* await message.answer(text) *)
| SendSleep (seconds : nat).          (* await asyncio.sleep(seconds) *)

Definition max_retries : nat := 3.
Definition retry_delay : nat := 1.

Definition shortened_note : pystr := u "...

(сообщение сокращено)".

Section SafeSend.

(** [outcome k] is the result of the [k]-th call of [message.answer]. *)
Variable outcome : nat -> send_outcome.
Variable text : pystr.

(** The [except TelegramBadRequest] branch: a text longer than 4000
    characters refused as too long is sent once more, cut to 4000
    characters and marked; the method returns in every case. *)
Definition bad_request_branch (attempt : nat) (msg : pystr) : bool * list send_event :=
  if py_contains (u "message is too long") msg && (4000 <? length text)%nat
  then
    let shortened_text := firstn 4000 text ++ shortened_note in
    match outcome (S attempt) with
    | Sent => (true, [SendAnswer text; SendAnswer shortened_text])
    | _ => (false, [SendAnswer text; SendAnswer shortened_text])
    end
  else (false, [SendAnswer text]).

(** [for attempt in range(max_retries)], from [attempt] on, with [fuel]
    iterations left. In the first iterations [attempt] is also the number
    of the call. *)
Fixpoint send_loop (fuel attempt : nat) : bool * list send_event :=
  match fuel with
  | O => (false, [])
  | S f =>
      let ev := SendAnswer text in
      match outcome attempt with
      | Sent => (true, [ev])
      | RetryAfterErr ra =>
          let '(b, evs) := send_loop f (S attempt) in (b, ev :: SendSleep ra :: evs)
      | NetworkErr =>
          if (attempt <? max_retries - 1)%nat then
            let '(b, evs) := send_loop f (S attempt) in
            (b, ev :: SendSleep (retry_delay * 2 ^ attempt) :: evs)
          else (false, [ev])
      | BadRequestErr msg => bad_request_branch attempt msg
      | OtherErr => (false, [ev])
      end
  end.

Definition safe_send_message : bool * list send_event := send_loop max_retries 0.

End SafeSend.




(* ------------------------------------------------------------------ *)
(** ** models/database.py and models/repositories.py *)

(** The model classes declared on [Base], with their [__tablename__];
    [Base.metadata.create_all] in [create_db] creates all of them. *)
Definition declared_models : list (string * string) :=
  [("User", "users"); ("Service", "services");
   ("ConsultationRequest", "consultation_requests");
   ("ChatLog", "chat_logs"); ("FAQ", "faq")]%string.

Definition created_tables : list string := map snd declared_models.

(** The repository classes, with the model each wraps. *)
Definition repositories : list (string * string) :=
  [("UserRepository", "User"); ("ServiceRepository", "Service");
   ("ConsultationRequestRepository", "ConsultationRequest");
   ("ChatLogRepository", "ChatLog"); ("FAQRepository", "FAQ")]%string.

(* ------------------------------------------------------------------ *)
(** ** Python's [str(int)] and [int(str)] *)

(** Decimal digits of [n >= 0], most significant first, in front of
    [acc]; [fuel] bounds the number of divisions. *)
Fixpoint z_digits (fuel : nat) (n : Z) (acc : pystr) : pystr :=
  match fuel with
  | O => acc
  | S f =>
      if n <? 10 then (48 + n) :: acc
      else z_digits f (n / 10) ((48 + n mod 10) :: acc)
  end.

(** [str(n)] for an [int]. *)
Definition py_str_int (n : Z) : pystr :=
  if n <? 0 then 45 :: z_digits (S (Z.to_nat (- n))) (- n) []
  else z_digits (S (Z.to_nat n)) n [].

(** The digits of [int(s)] after the sign: decimal digits (any Unicode
    decimal), single underscores between digits. [prev_us] is true at
    the start and after an underscore, where a digit must follow. *)
Fixpoint int_digits (s : pystr) (acc : Z) (prev_us : bool) : option Z :=
  match s with
  | [] => if prev_us then None else Some acc
  | c :: s' =>
      if c =? 95 then (if prev_us then None else int_digits s' acc true)
      else match decimal_value c with
           | Some d => int_digits s' (acc * 10 + d) false
           | None => None
           end
  end.

(** [int(s)]: surrounding whitespace, an optional sign, then the digits;
    [None] is the ValueError. *)
Definition py_int (s : pystr) : option Z :=
  let t := py_strip s in
  let '(sign, body) :=
    match t with
    | c :: r => if c =? 45 then (-1, r) else if c =? 43 then (1, r) else (1, t)
    | [] => (1, t)
    end in
  option_map (fun v => sign * v) (int_digits body 0 true).

(* ------------------------------------------------------------------ *)
(** ** keyboards/reply_keyboards.py (inline keyboards) and the callback
    dispatch *)

(** An inline keyboard as the list of its buttons, row by row:
    (text, callback_data). *)
Definition inline_keyboard := list (pystr * pystr).

(** [get_services_keyboard]: one button per service (id, name), then the
    cancel button. *)
Definition get_services_keyboard (services : list (Z * pystr)) : inline_keyboard :=
  map (fun '(sid, name) => (name, u "service_" ++ py_str_int sid)) services
  ++ [(u "❌ Отмена", u "cancel_consultation")].

Definition get_confirmation_keyboard : inline_keyboard :=
  [(u "✅ Подтвердить", u "confirm_request");
   (u "❌ Отмена", u "cancel_consultation")].

Definition get_faq_categories_keyboard : inline_keyboard :=
  [(u "💰 Цены и стоимость", u "category_price");
   (u "⏰ Длительность и реабилитация", u "category_recovery");
   (u "⚕️ Безопасность и риски", u "category_safety");
   (u "📋 Подготовка к операции", u "category_preparation");
   (u "🏥 Общие вопросы", u "category_general");
   (u "❌ Закрыть", u "close_faq")].

Inductive callback_handler :=
| C_select_service | C_confirm_request | C_cancel_consultation.

(** The callback-query handlers of the consultation router in
    registration order ([basic_router] registers none):
    [F.data.startswith("service_")], [F.data == "confirm_request"],
    [F.data == "cancel_consultation"]. *)
Definition callback_filters : list ((pystr -> bool) * callback_handler) :=
  [(fun d => prefixb (u "service_") d, C_select_service);
   (fun d => pystr_eqb d (u "confirm_request"), C_confirm_request);
   (fun d => pystr_eqb d (u "cancel_consultation"), C_cancel_consultation)].

Fixpoint first_callback (data : pystr) (hs : list ((pystr -> bool) * callback_handler))
  : option callback_handler :=
  match hs with
  | [] => None
  | (f, h) :: hs' => if f data then Some h else first_callback data hs'
  end.

Definition dispatch_callback (data : pystr) : option callback_handler :=
  first_callback data callback_filters.

(** [int(callback.data.split("_")[1])] in [select_service]; [None] is the
    IndexError or ValueError raised before anything else is done. *)
Definition select_service_id (data : pystr) : option Z :=
  match py_split [95] data with
  | _ :: x :: _ => py_int x
  | _ => None
  end.

(* ------------------------------------------------------------------ *)
(** ** The bot as a whole: messages and callbacks on the FSM storage *)

(** The effect of a message handler on the FSM storage: [cmd_start],
    [cmd_cancel], [btn_cancel] and [btn_main_menu] begin with
    [state.clear()]; the other handlers of [basic_router] do not touch
    the state; the consultation handlers are the functions above. *)
Definition run_message_handler (today : date) (services_nonempty : bool)
  (h : message_handler) (s : fsm) (text : pystr) : fsm :=
  match h with
  | H_cmd_start | H_cmd_cancel | H_btn_cancel | H_btn_main_menu => cleared
  | H_cmd_help | H_btn_service_info | H_btn_prices | H_btn_contact_manager
  | H_btn_faq | H_btn_about_clinic | H_handle_text_message => s
  | H_process_name => fst (process_name s text)
  | H_process_phone => fst (process_phone s text)
  | H_process_date => fst (process_date today s text)
  | H_skip_comment => fst (skip_comment s)
  | H_process_comment => fst (process_comment s text)
  | H_start_consultation => fst (start_consultation services_nonempty s)
  end.

(** A text message, dispatched as [main.py] sets the routers up. *)
Definition bot_message (today : date) (services_nonempty : bool) (s : fsm)
  (text : pystr) : fsm :=
  match dispatch_message (cursor s) text with
  | Some h => run_message_handler today services_nonempty h s text
  | None => s
  end.

(** An update: a text message, or a tap on an inline button with its
    callback data ([user_known] and [db_ok] as for [confirm_request]). *)
Inductive bot_update :=
| UMessage (text : pystr)
| UCallback (cb_data : pystr) (user_known db_ok : bool).

(** One update: the new FSM storage and the request row written, if
    any. *)
Definition bot_step (services : Z -> option pystr) (today : date)
  (services_nonempty : bool) (s : fsm) (upd : bot_update)
  : fsm * option ConsultationRequest :=
  match upd with
  | UMessage text => (bot_message today services_nonempty s text, None)
  | UCallback cb uk ok =>
      match dispatch_callback cb with
      | Some C_select_service =>
          match select_service_id cb with
          | Some sid => (fst (select_service services sid s), None)
          | None => (s, None)
          end
      | Some C_confirm_request =>
          let '(s', _, r) := confirm_request uk ok s in (s', r)
      | Some C_cancel_consultation => (fst (cancel_consultation s), None)
      | None => (s, None)
      end
  end.

(** A sequence of updates of one chat: the final storage and the request
    rows written, in order. *)
Fixpoint bot_run (services : Z -> option pystr) (today : date)
  (services_nonempty : bool) (s : fsm) (us : list bot_update)
  : fsm * list ConsultationRequest :=
  match us with
  | [] => (s, [])
  | upd :: us' =>
      let '(s1, r) := bot_step services today services_nonempty s upd in
      let '(s2, rs) := bot_run services today services_nonempty s1 us' in
      (s2, match r with Some x => x :: rs | None => rs end)
  end.

(* ------------------------------------------------------------------ *)
(** ** services/openai_service.py: OpenAIService *)

(** The [settings] fields the prompt reads. *)
Record clinic_settings := mksettings {
  clinic_name : pystr;
  clinic_phone : pystr;
  clinic_email : pystr;
  clinic_website : pystr
}.

(** [str(service.get(k, ''))] for the three keys of the service dict the
    prompt reads. *)
Record service_view := mkservice_view {
  sv_name : pystr;
  sv_price_range : pystr;
  sv_duration : pystr
}.

(** An entry [{'role': ..., 'text': ...}] of the history. *)
Record hist_msg := mkhist { hm_role : pystr; hm_text : pystr }.

(** [l[-k:]] *)
Definition py_last {A : Type} (k : nat) (l : list A) : list A :=
  skipn (length l - k) l.

Definition system_prompt (st : clinic_settings) : pystr :=
  u "Ты — Анна, виртуальный консультант клиники пластической хирургии "
  ++ [34] ++ clinic_name st ++ [34] ++ u ".

Твой стиль:
- Дружелюбный, естественный, не роботизированный
- Отвечай конкретно на заданный вопрос
- Будь полезной, но не навязчивой
- Используй эмпатию и понимание

Правила:
1. Отвечай прямо на вопрос пользователя (1-3 предложения)
2. Если вопрос об услугах - давай краткую информацию и предлагай консультацию
3. Если вопрос не по теме - вежливо переведи на тему услуг клиники
4. Не используй шаблонные маркетинговые фразы каждый раз
5. Учитывай контекст и историю диалога
6. МАКСИМАЛЬНАЯ ДЛИНА ОТВЕТА: 1000 символов!

Контактная информация:
Телефон: " ++ clinic_phone st ++ u "
Email: " ++ clinic_email st ++ u "
Сайт: " ++ clinic_website st ++ [10].

Definition history_line (m : hist_msg) : pystr :=
  (if pystr_eqb (hm_role m) (u "user") then u "Клиент" else u "Анна")
  ++ u ": " ++ hm_text m ++ [10].

(** [_build_prompt] for the context [handle_text_message] passes,
    [{'service': services[0].__dict__ if services else None,
    'history': chat_history}]: both keys are present. With [None] under
    ['service'], [service.get] raises AttributeError ([None] here). *)
Definition build_prompt (st : clinic_settings) (user_message : pystr)
  (service : option service_view) (history : list hist_msg)
  : option (pystr * pystr) :=
  match service with
  | None => None
  | Some sv =>
      let service_context :=
        u "
Краткая информация об услуге:
Название: " ++ sv_name sv ++ u "
Цены: " ++ sv_price_range sv ++ u "
Длительность: " ++ sv_duration sv ++ [10] in
      let chat_history := flat_map history_line (py_last 3 history) in
      let full_user_message :=
        u "ВОПРОС КЛИЕНТА:
" ++ user_message ++ [10; 10] ++ service_context ++ u "

ИСТОРИЯ ДИАЛОГА:
" ++ chat_history ++ u "

Отвечай естественно и по существу, как живой консультант.
" in
      Some (system_prompt st, full_user_message)
  end.

(** [generate_response]. [api system user] is the content of the first
    choice of the chat completion, [None] when the call raises, returns
    no choice or no content; [_call_openai] strips it. *)
Definition generate_response (st : clinic_settings)
  (api : pystr -> pystr -> option pystr) (prompt : pystr)
  (service : option service_view) (history : list hist_msg) : option pystr :=
  match build_prompt st prompt service history with
  | None => None
  | Some (sp, um) =>
      match option_map py_strip (api sp um) with
      | Some ((_ :: _) as response) =>
          if (3500 <? length response)%nat
          then Some (firstn 3500 response ++ truncation_note)
          else Some response
      | _ => None
      end
  end.

(** A row of [chat_logs] as [handle_text_message] reads it. *)
Record chat_log := mklog { log_message : pystr; log_response : pystr }.

(** The [chat_history] list [handle_text_message] builds from
    [history = get_user_logs(user.id, limit=5)] (newest first). *)
Definition chat_history_of (history : list chat_log) : list hist_msg :=
  match history with
  | [] => []
  | _ =>
      flat_map (fun log =>
                  mkhist (u "user") (log_message log)
                  :: (if truthy (Some (log_response log))
                      then [mkhist (u "assistant") (log_response log)] else []))
               (rev (py_last 6 history))
  end.

(** [ChatLogRepository.get_user_logs(user_id, limit)] on the user's logs,
    newest first. *)
Definition get_user_logs (logs_newest_first : list chat_log) (limit : nat)
  : list chat_log :=
  firstn limit logs_newest_first.

(** The LLM answer [handle_text_message] obtains: [services_first] is
    [services[0]] (as read by the prompt) or [None] for an empty table. *)
Definition llm_answer (st : clinic_settings) (api : pystr -> pystr -> option pystr)
  (text : pystr) (services_first : option service_view)
  (logs_newest_first : list chat_log) : option pystr :=
  generate_response st api text services_first
    (chat_history_of (get_user_logs logs_newest_first 5)).

(* ------------------------------------------------------------------ *)
(** ** utils/message_handler.py: safe_send_messages *)

Inductive batch_event :=
| BText (evs : list send_event)  (* one safe_send_message call *)
| BPause.                        (* asyncio.sleep(0.5) *)

(** [for i, text in enumerate(texts)]; [outcomes i] gives the outcomes of
    the calls made for the [i]-th text. *)
Fixpoint send_all (outcomes : nat -> nat -> send_outcome) (i : nat)
  (texts : list pystr) (success : bool) : bool * list batch_event :=
  match texts with
  | [] => (success, [])
  | t :: ts =>
      let '(ok, evs) := safe_send_message (outcomes i) t in
      let '(b, rest) :=
        send_all outcomes (S i) ts (if ok then success else false) in
      (b, BText evs :: (if ok then [] else [BPause]) ++ rest)
  end.

Definition safe_send_messages (outcomes : nat -> nat -> send_outcome)
  (texts : list pystr) : bool * list batch_event :=
  send_all outcomes 0 texts true.

(** The text of the first [message.answer] call of each text. *)
Definition texts_started (evs : list batch_event) : list pystr :=
  flat_map (fun e => match e with
                     | BText (SendAnswer t :: _) => [t]
                     | _ => []
                     end) evs.

(* ------------------------------------------------------------------ *)
(** ** models/repositories.py: ConsultationRequestRepository *)

(** A row of [consultation_requests] with its primary key. *)
Record stored_request := mkstored { sr_id : Z; sr_row : ConsultationRequest }.

Definition with_status (r : stored_request) (status : pystr) : stored_request :=
  let c := sr_row r in
  mkstored (sr_id r)
    (mkrequest (cr_service_id c) (cr_name c) (cr_phone c) (cr_preferred_date c)
       (cr_comment c) status).

(** [get_all(status)]: the table is kept in insertion order, and
    [order_by(created_at.desc())] is taken as the reverse of it. *)
Definition requests_get_all (tbl : list stored_request) (status : option pystr)
  : list stored_request :=
  rev (match status with
       | Some ((_ :: _) as st) => filter (fun r => pystr_eqb (cr_status (sr_row r)) st) tbl
       | _ => tbl
       end).

(** [session.get(ConsultationRequest, request_id)] *)
Definition requests_get (tbl : list stored_request) (rid : Z) : option stored_request :=
  find (fun r => sr_id r =? rid) tbl.

(** [update_status]: the UPDATE, then [session.get]. *)
Definition update_status (tbl : list stored_request) (rid : Z) (status : pystr)
  : list stored_request * option stored_request :=
  let tbl' := map (fun r => if sr_id r =? rid then with_status r status else r) tbl in
  (tbl', requests_get tbl' rid).

(** The admin endpoint [update_request_status]: HTTP 404 when no row is
    returned, else [{"success": True, "status": status}]. *)
Definition update_request_status (tbl : list stored_request) (rid : Z) (status : pystr)
  : list stored_request * option pystr :=
  let '(tbl', r) := update_status tbl rid status in
  (tbl', match r with Some _ => Some status | None => None end).


(* ================================================================== *)
(** * Theorems *)

(* ------------------------------------------------------------------ *)
(** ** Message splitting and truncation *)

(** A long text: one short sentence, then one sentence longer than the
    4096-character limit, in a single paragraph. *)
Definition long_sentence_text : pystr := [97; 46; 32] ++ repeat 98 4100.

(** C3 (code_bug): [split_message] with its default limit 4096 returns,
    for [long_sentence_text], a second part of 4101 characters: the long
    sentence is moved into [current_part] because [current_part] is not
    empty, and it is never cut by words. *)
Theorem split_message_overlong_part :
  length long_sentence_text = 4103%nat /\
  map (@length Z) (split_message 4096 long_sentence_text) = [2%nat; 4101%nat].
Proof. split; vm_compute; reflexivity. Qed.











(* ------------------------------------------------------------------ *)
(** ** Booking dialogue *)

Ltac split_ifs :=
  repeat match goal with
  | |- context [if ?c then _ else _] => destruct c
  | |- context [match ?x with Some _ => _ | None => _ end] => destruct x
  end.

Definition demo_services (sid : Z) : option pystr :=
  if sid =? 1 then Some (u "Блефаропластика верхних век") else None.

Definition demo_today : date := mkdate 2026 10 18.

(** C1 (counterexample): in state [entering_date] a tap on a service
    button still handled by [select_service] (no state filter) moves the
    cursor back to [entering_name]. *)
Lemma select_service_moves_cursor_back :
  cursor (fst (consult_step demo_services demo_today true
                 (mkfsm (Some entering_date) empty_data) (ECallbackService 1)))
  = Some entering_name.
Proof. reflexivity. Qed.

Lemma consult_step_cases (services : Z -> option pystr) (today : date)
  (ne : bool) (s : fsm) (e : flow_event) :
  let c' := cursor (fst (consult_step services today ne s e)) in
  c' = cursor s \/ c' = advance (cursor s) \/ c' = None \/
  (exists sid nm, e = ECallbackService sid /\ services sid = Some nm /\
                  c' = Some entering_name).
Proof.
  destruct e as [sid | text | uk ok |]; simpl.
  - unfold select_service. destruct (services sid) as [nm|] eqn:Hs; simpl.
    + right; right; right; eauto.
    + left; reflexivity.
  - unfold consultation_message; destruct (cursor s) as [[]|] eqn:Hc;
      unfold process_name, process_phone, process_date, accept_date,
        skip_comment, process_comment, set_comment, start_consultation;
      split_ifs; simpl; rewrite ?Hc; auto.
  - unfold confirm_request.
    destruct uk; simpl; [| auto].
    destruct (fd_service_id (data s)), (fd_name (data s)), (fd_phone (data s));
      simpl; auto; destruct ok; simpl; auto;
      destruct (fd_service_name (data s)); simpl; auto.
  - auto.
Qed.

Lemma confirm_request_clears (user_known db_ok : bool) (s : fsm) :
  (forall r, snd (confirm_request user_known db_ok s) = Some r ->
     fst (fst (confirm_request user_known db_ok s)) = cleared) /\
  (snd (confirm_request user_known db_ok s) = None ->
     fst (fst (confirm_request user_known db_ok s)) = s).
Proof.
  unfold confirm_request.
  destruct user_known; simpl; [| split; [discriminate | reflexivity]].
  destruct (fd_service_id (data s)), (fd_name (data s)), (fd_phone (data s));
    simpl; try (split; [discriminate | reflexivity]);
    destruct db_ok; simpl; try (split; [discriminate | reflexivity]);
    destruct (fd_service_name (data s)); simpl;
    (split; [reflexivity | discriminate]).
Qed.

(** C1 (amended): along the consultation flow, a selection of an
    existing service sets [entering_name] (from any state, also a later
    one: [select_service] has no state filter, so this moves the dialogue
    back); an unknown service changes nothing. In [entering_name] a name
    of at least two characters (after strip) sets [entering_phone], in
    [entering_phone] a valid phone sets [entering_date], in
    [entering_date] an accepted date sets [entering_comment]; an invalid
    input leaves the storage unchanged. In [entering_comment] a comment,
    or the skip button, keeps the state and answers with the
    confirmation step. A confirmation clears the state once the request
    row is written and leaves the storage unchanged otherwise; a
    cancellation clears it. No handler enters [choosing_service]. *)
Theorem consult_step_cursor (services : Z -> option pystr) (today : date)
  (ne : bool) (s : fsm) :
  let step e := fst (consult_step services today ne s e) in
  (forall sid nm, services sid = Some nm ->
     cursor (step (ECallbackService sid)) = Some entering_name) /\
  (forall sid, services sid = None -> step (ECallbackService sid) = s) /\
  (cursor s = Some entering_name -> forall t,
     if (2 <=? length (py_strip t))%nat
     then cursor (step (EMessage t)) = Some entering_phone
     else step (EMessage t) = s) /\
  (cursor s = Some entering_phone -> forall t,
     if phone_re_match (remove_seps (py_strip t))
     then cursor (step (EMessage t)) = Some entering_date
     else step (EMessage t) = s) /\
  (cursor s = Some entering_date -> forall t,
     if date_accepted today (py_strip t)
     then cursor (step (EMessage t)) = Some entering_comment
     else step (EMessage t) = s) /\
  (cursor s = Some entering_comment -> forall t,
     cursor (step (EMessage t)) = Some entering_comment /\
     snd (consult_step services today ne s (EMessage t))
       = show_confirmation (step (EMessage t))) /\
  (forall uk ok,
     (forall r, snd (confirm_request uk ok s) = Some r ->
        step (ECallbackConfirm uk ok) = cleared) /\
     (snd (confirm_request uk ok s) = None -> step (ECallbackConfirm uk ok) = s)) /\
  step ECallbackCancel = cleared /\
  (forall e, cursor (step e) = Some choosing_service -> cursor s = Some choosing_service).
Proof.
  cbv zeta.
  split; [intros sid nm Hs; unfold consult_step, select_service; rewrite Hs; reflexivity|].
  split; [intros sid Hs; unfold consult_step, select_service; rewrite Hs; reflexivity|].
  split.
  { intros Hc t. unfold consult_step, consultation_message. rewrite Hc.
    unfold process_name. cbv zeta.
    destruct (Nat.leb_spec 2 (length (py_strip t)));
      destruct (Nat.ltb_spec (length (py_strip t)) 2); try lia; reflexivity. }
  split.
  { intros Hc t. unfold consult_step, consultation_message. rewrite Hc.
    unfold process_phone. cbv zeta.
    destruct (phone_re_match (remove_seps (py_strip t))); reflexivity. }
  split.
  { intros Hc t. unfold consult_step, consultation_message. rewrite Hc.
    unfold process_date, date_accepted. cbv zeta.
    destruct (existsb (pystr_eqb (py_lower (py_strip t))) any_time_phrases);
      [reflexivity|].
    destruct (try_formats today (py_strip t) date_formats); reflexivity. }
  split.
  { intros Hc t. unfold consult_step, consultation_message. rewrite Hc.
    destruct (pystr_eqb t skip_button); split; try reflexivity; exact Hc. }
  split.
  { intros uk ok. simpl.
    destruct (confirm_request_clears uk ok s) as [Hw Hn].
    destruct (confirm_request uk ok s) as [[s' rs] req]; simpl in *.
    split.
    - intros r Hr. exact (Hw r Hr).
    - intro Hr. exact (Hn Hr). }
  split; [reflexivity|].
  intros e Hch.
  pose proof (consult_step_cases services today ne s e) as Hcases.
  cbv zeta in Hcases.
  destruct Hcases as [H | [H | [H | [sid [nm [_ [_ H]]]]]]];
    rewrite Hch in H; try discriminate H.
  - symmetry; exact H.
  - destruct (cursor s) as [[]|]; simpl in H; congruence.
Qed.

(** A phone number typed after a tab: [strip] removes the tab, the
    separator removal does not. *)
Definition tab_phone : pystr := 9 :: u "+79991234567".

(** C5 (counterexample): [tab_phone] does not match the pattern after
    removing spaces, hyphens and parentheses, yet [process_phone] accepts
    it, because it strips surrounding whitespace first. *)
Lemma process_phone_accepts_unmatched_raw_input :
  phone_re_match (remove_seps tab_phone) = false /\
  cursor (fst (process_phone (mkfsm (Some entering_phone) empty_data) tab_phone))
  = Some entering_date.
Proof. split; reflexivity. Qed.

(** C5 (amended): [process_phone] accepts a text (state [entering_date],
    phone stored, date asked) exactly when, after stripping surrounding
    whitespace and removing spaces, hyphens and parentheses, it matches
    [^(\+7|8)\d{10}$]; otherwise it re-prompts and leaves the cursor and
    the form data unchanged. *)
Theorem process_phone_validation (s : fsm) (text : pystr) :
  (phone_re_match (remove_seps (py_strip text)) = true ->
     cursor (fst (process_phone s text)) = Some entering_date /\
     snd (process_phone s text) = [RAskDate] /\
     exists ph, fd_phone (data (fst (process_phone s text))) = Some ph) /\
  (phone_re_match (remove_seps (py_strip text)) = false ->
     process_phone s text = (s, [RPhoneInvalid])).
Proof.
  unfold process_phone.
  split; intro H; rewrite H; simpl; [| reflexivity].
  split; [reflexivity | split; [reflexivity | eexists; reflexivity]].
Qed.

(** The form as it stands in state [entering_phone]. *)
Definition form_at_phone : fsm :=
  mkfsm (Some entering_phone)
    (mkform (Some 1) (Some (u "Блефаропластика верхних век")) (Some (u "Анна"))
       None None None None).

(** The accepted phone input ["(8)9991234567"]. *)
Definition paren_phone : pystr := u "(8)9991234567".

(** C9 (code_bug): ["(8)9991234567"] passes the validation (its cleaned
    form is ["89991234567"]), but the normalisation tests
    [phone.startswith('8')] on the uncleaned text, which starts with
    ["("]; the phone is stored as typed, and after the date, the skipped
    comment and the confirmation the request row carries it. *)
Theorem paren_phone_stored_without_plus7 :
  let s1 := fst (process_phone form_at_phone paren_phone) in
  cursor s1 = Some entering_date /\
  fd_phone (data s1) = Some paren_phone /\
  prefixb (u "+7") paren_phone = false /\
  let s2 := fst (process_date demo_today s1 (u "когда удобно")) in
  let s3 := fst (skip_comment s2) in
  option_map cr_phone (snd (confirm_request true true s3)) = Some paren_phone.
Proof. vm_compute. repeat split; reflexivity. Qed.

Lemma pystr_eqb_true_iff (a b : pystr) : pystr_eqb a b = true <-> a = b.
Proof.
  revert b; induction a as [|x a IH]; intros [|y b]; simpl;
    try (split; [discriminate | intro H; discriminate H]); [tauto |].
  rewrite andb_true_iff, Z.eqb_eq, IH.
  split; [intros [-> ->]; reflexivity | intro H; injection H; auto].
Qed.

Lemma existsb_pystr_eqb (x : pystr) (l : list pystr) :
  existsb (pystr_eqb x) l = true <-> In x l.
Proof.
  rewrite existsb_exists. split.
  - intros [y [Hy Heq]]. apply pystr_eqb_true_iff in Heq. subst. exact Hy.
  - intro H. exists x. split; [exact H | apply pystr_eqb_true_iff; reflexivity].
Qed.

Lemma try_formats_spec (today : date) (di : pystr) (fmts : list (list directive)) :
  (exists f d, In f fmts /\ strptime f di = Some d /\ date_leb today d = true /\
               try_formats today di fmts = Some d) \/
  ((forall f d, In f fmts -> strptime f di = Some d -> date_leb today d = false) /\
   try_formats today di fmts = None).
Proof.
  induction fmts as [|f fs IH]; simpl.
  - right. split; [intros f d [] | reflexivity].
  - destruct (strptime f di) as [d|] eqn:Hp.
    + destruct (date_leb today d) eqn:Hle.
      * left. exists f, d. auto.
      * destruct IH as [[f' [d' [Hin [Hp' [Hle' Ht]]]]] | [Hall Ht]].
        -- left. exists f', d'. auto.
        -- right. split; [| exact Ht].
           intros f'' d'' [<- | Hin] Hp''; [congruence | exact (Hall _ _ Hin Hp'')].
    + destruct IH as [[f' [d' [Hin [Hp' [Hle' Ht]]]]] | [Hall Ht]].
      * left. exists f', d'. auto.
      * right. split; [| exact Ht].
        intros f'' d'' [<- | Hin] Hp''; [congruence | exact (Hall _ _ Hin Hp'')].
Qed.

(** A date typed after a space, not parsed by any of the formats as it
    is. *)
Definition spaced_date : pystr := u " 01.01.2031".

(** C10 (counterexample): [spaced_date] is none of the phrases and parses
    under none of the four formats, yet [process_date] accepts it (with
    the date 2031-01-01), because it strips surrounding whitespace
    first. *)
Lemma process_date_accepts_unparsed_raw_input :
  map (fun f => strptime f spaced_date) date_formats = [None; None; None; None] /\
  existsb (pystr_eqb (py_lower spaced_date)) any_time_phrases = false /\
  cursor (fst (process_date demo_today (mkfsm (Some entering_date) empty_data) spaced_date))
  = Some entering_comment /\
  fd_preferred_date (data (fst (process_date demo_today
       (mkfsm (Some entering_date) empty_data) spaced_date)))
  = Some (Some (mkdate 2031 1 1)).
Proof. vm_compute. repeat split; reflexivity. Qed.

(** C10 (amended): let [di] be the text with surrounding whitespace
    stripped. If [di.lower()] is one of the three phrases, the text is
    accepted with no date; otherwise it is accepted, with date [d], only
    when [di] parses under one of ['%d.%m.%Y', '%d.%m.%y', '%d-%m-%Y',
    '%d-%m-%y'] to a date [d] not before today, and when no format gives
    such a date the handler re-prompts and leaves the state and the form
    data unchanged. *)
Theorem process_date_validation (today : date) (s : fsm) (text : pystr) :
  (In (py_lower (py_strip text)) any_time_phrases ->
     process_date today s text = accept_date s None (py_strip text)) /\
  (~ In (py_lower (py_strip text)) any_time_phrases ->
     (exists f d, In f date_formats /\ strptime f (py_strip text) = Some d /\
        date_leb today d = true /\
        process_date today s text = accept_date s (Some d) (py_strip text)) \/
     ((forall f d, In f date_formats -> strptime f (py_strip text) = Some d ->
         date_leb today d = false) /\
      process_date today s text = (s, [RDateInvalid]))).
Proof.
  unfold process_date.
  split; intro Hin.
  - apply existsb_pystr_eqb in Hin. rewrite Hin. reflexivity.
  - assert (Hf : existsb (pystr_eqb (py_lower (py_strip text))) any_time_phrases = false).
    { destruct (existsb _ _) eqn:E; [| reflexivity].
      apply existsb_pystr_eqb in E. contradiction. }
    rewrite Hf.
    destruct (try_formats_spec today (py_strip text) date_formats)
      as [[f [d [Hi [Hp [Hle Ht]]]]] | [Hall Ht]]; rewrite Ht.
    + left. exists f, d. auto.
    + right. auto.
Qed.

(* ------------------------------------------------------------------ *)
(** ** Questions outside the dialogue *)

Lemma get_fallback_response_some (choice : list pystr -> pystr) (text : pystr) :
  exists r, get_fallback_response choice text = Some r /\
    match first_keyword (py_lower text) faq_responses with
    | Some rs => r = choice rs
    | None => r = choice general_responses
    end.
Proof.
  unfold get_fallback_response.
  destruct (first_keyword (py_lower text) faq_responses); eauto.
Qed.

Lemma first_keyword_in (m : pystr) (rs : list pystr) :
  first_keyword m faq_responses = Some rs -> In rs (map snd faq_responses).
Proof.
  generalize faq_responses as tbl.
  induction tbl as [|[k v] tbl IH]; simpl; [discriminate|].
  destruct (py_contains k m); [intro H; injection H as <-; left; reflexivity|].
  intro H; right; exact (IH H).
Qed.

(** No canned reply is empty, and none is the static apology. *)
Lemma canned_replies_ok :
  forallb (fun r => match r with [] => false | _ => negb (pystr_eqb r apology_text) end)
    (concat (map snd faq_responses) ++ general_responses) = true.
Proof. vm_compute. reflexivity. Qed.

Lemma canned_reply_ok (r : pystr) :
  In r (concat (map snd faq_responses) ++ general_responses) ->
  r <> [] /\ r <> apology_text.
Proof.
  intro Hin. pose proof canned_replies_ok as H.
  rewrite forallb_forall in H. specialize (H r Hin).
  destruct r as [|x r']; [discriminate|].
  split; [discriminate|].
  intro Heq. rewrite Heq in H. rewrite (proj2 (pystr_eqb_true_iff _ _) eq_refl) in H.
  discriminate.
Qed.

(** C2 (counterexample): a message with no keyword of the table, while
    the LLM gives nothing, is answered with one of the general fallback
    replies, never with the static apology, whatever [random.choice]
    picks. *)
Lemma no_keyword_reply_is_not_apology :
  first_keyword (py_lower (u "hello")) faq_responses = None /\
  forall choice : list pystr -> pystr,
    (forall l, l <> [] -> In (choice l) l) ->
    question_response choice None (u "hello") <> apology_text /\
    In (question_response choice None (u "hello")) general_responses.
Proof.
  split; [vm_compute; reflexivity|].
  intros choice Hc.
  assert (Hg : In (question_response choice None (u "hello")) general_responses).
  { unfold question_response, get_fallback_response.
    replace (first_keyword (py_lower (u "hello")) faq_responses) with
      (@None (list pystr)) by (vm_compute; reflexivity).
    simpl.
    assert (Hin : In (choice general_responses) general_responses)
      by (apply Hc; discriminate).
    destruct (canned_reply_ok (choice general_responses)) as [Hne _];
      [apply in_or_app; right; exact Hin|].
    destruct (choice general_responses) as [|x r]; [contradiction|exact Hin]. }
  split; [| exact Hg].
  apply canned_reply_ok. apply in_or_app. right. exact Hg.
Qed.

(** C2 (amended): the reply to a question outside a dialogue state is the
    LLM answer when it is a non-empty string; otherwise it is a reply
    picked by [random.choice] from the responses of the first keyword of
    the fallback table that occurs in the lower-cased message, or, when
    none occurs, from the four general fallback replies. The fallback
    always yields a non-empty reply, so the static apology is never
    chosen by the chain. *)
Theorem question_response_chain (choice : list pystr -> pystr)
  (Hchoice : forall l, l <> [] -> In (choice l) l)
  (llm : option pystr) (text : pystr) :
  (truthy llm = true -> llm = Some (question_response choice llm text)) /\
  (truthy llm = false ->
     match first_keyword (py_lower text) faq_responses with
     | Some rs => In (question_response choice llm text) rs
     | None => In (question_response choice llm text) general_responses
     end /\
     question_response choice llm text <> apology_text).
Proof.
  split.
  - intro Ht. unfold question_response.
    destruct llm as [[|x r]|]; simpl in Ht; try discriminate Ht; reflexivity.
  - intro Ht. unfold question_response. rewrite Ht.
    unfold get_fallback_response.
    destruct (first_keyword (py_lower text) faq_responses) as [rs|] eqn:Hk.
    + assert (Hrs : In rs (map snd faq_responses)) by (eapply first_keyword_in; exact Hk).
      assert (Hne : rs <> []).
      { intro E. subst rs. revert Hrs. vm_compute. intuition discriminate. }
      pose proof (Hchoice rs Hne) as Hin.
      assert (Hall : In (choice rs) (concat (map snd faq_responses) ++ general_responses)).
      { apply in_or_app. left. apply in_concat. exists rs. auto. }
      destruct (canned_reply_ok _ Hall) as [Hnil Hap].
      destruct (choice rs) as [|x r] eqn:E; [contradiction|].
      simpl. split; [exact Hin | exact Hap].
    + assert (Hin : In (choice general_responses) general_responses)
        by (apply Hchoice; discriminate).
      assert (Hall : In (choice general_responses)
                       (concat (map snd faq_responses) ++ general_responses))
        by (apply in_or_app; right; exact Hin).
      destruct (canned_reply_ok _ Hall) as [Hnil Hap].
      destruct (choice general_responses) as [|x r] eqn:E; [contradiction|].
      simpl. split; [exact Hin | exact Hap].
Qed.

(** A question about the price, asked while the LLM is unavailable, with
    [random.choice] taking the first element. *)
Lemma question_response_chain_witness :
  In (question_response (fun l => hd [] l) None (u "Какая цена операции?"))
     (nth 2 (map snd faq_responses) []).
Proof.
  assert (Hc : forall l : list pystr, l <> [] -> In (hd [] l) l)
    by (intros [|x l] H; [contradiction | left; reflexivity]).
  destruct (question_response_chain (fun l => hd [] l) Hc None
              (u "Какая цена операции?")) as [_ H].
  destruct (H eq_refl) as [Hk _].
  vm_compute in Hk. vm_compute. exact Hk.
Defined.

(* ------------------------------------------------------------------ *)
(** ** Dispatch of messages during the dialogue *)

Lemma first_handler_in (c : option ConsultationStates) (text : pystr)
  (hs : list (msg_filter * message_handler)) (h : message_handler) :
  first_handler c text hs = Some h -> exists f, In (f, h) hs.
Proof.
  induction hs as [|[f h'] hs IH]; simpl; [discriminate|].
  destruct (filter_ok c text f).
  - intro H. injection H as <-. exists f. left. reflexivity.
  - intro H. destruct (IH H) as [f' Hin]. exists f'. right. exact Hin.
Qed.

Lemma basic_router_total (c : option ConsultationStates) (text : pystr) :
  exists h, first_handler c text basic_router = Some h.
Proof.
  unfold basic_router. simpl.
  repeat match goal with
  | |- context [if ?b then _ else _] => destruct b
  end; eexists; reflexivity.
Qed.

(** C7 (code_bug): [basic_router] is included first and ends with the
    filterless [handle_text_message], so every message, in every state,
    is dispatched to a handler of [basic_router]; a name typed in state
    [entering_name] reaches [handle_text_message], which returns at once
    (no reply, no LLM call, no log), and [process_name] never runs. *)
Theorem state_message_not_routed_to_dialogue :
  dispatch_message (Some entering_name) (u "Анна") = Some H_handle_text_message /\
  (forall uk llm choice,
     handle_text_message (Some entering_name) uk llm choice (u "Анна") = []) /\
  (forall c text, exists f h, dispatch_message c text = Some h /\ In (f, h) basic_router).
Proof.
  split; [vm_compute; reflexivity|].
  split; [reflexivity|].
  intros c text.
  change (dispatch_message c text) with
    (match first_handler c text basic_router with
     | Some h => Some h
     | None => dispatch_in [consultation_router] c text
     end).
  destruct (basic_router_total c text) as [h Hh]. rewrite Hh.
  destruct (first_handler_in c text basic_router h Hh) as [f Hin].
  exists f, h. split; [reflexivity | exact Hin].
Qed.

(* ------------------------------------------------------------------ *)
(** ** Retrying sender *)










(* ------------------------------------------------------------------ *)
(** ** Persistence layer *)

(** C8 (counterexample): the schema has five tables, not four; the fifth
    is the [faq] table of the [FAQ] model. *)
Lemma created_tables_five :
  length created_tables = 5%nat /\ In "faq"%string created_tables.
Proof. split; [reflexivity | simpl; tauto]. Qed.

(** C8 (amended): [create_all] creates exactly five distinct tables,
    [users], [services], [consultation_requests], [chat_logs] and [faq], and
    each of their models is wrapped by exactly one repository class, in the
    same order. *)
Theorem persistence_layer_tables :
  created_tables =
    ["users"; "services"; "consultation_requests"; "chat_logs"; "faq"]%string /\
  NoDup created_tables /\
  map snd repositories = map fst declared_models /\
  NoDup (map fst declared_models).
Proof.
  split; [reflexivity |].
  split; [| split; [reflexivity |]];
    repeat constructor; simpl; intuition discriminate.
Qed.

(* ================================================================== *)
(** * Further properties of the code *)

(* ------------------------------------------------------------------ *)
(** ** Message splitting *)

Lemma lstrip_length (s : pystr) : (length (lstrip s) <= length s)%nat.
Proof.
  induction s as [|c s IH]; simpl; [lia|].
  destruct (is_space c); simpl; lia.
Qed.

Lemma py_strip_length (s : pystr) : (length (py_strip s) <= length s)%nat.
Proof.
  unfold py_strip. rewrite length_rev.
  pose proof (lstrip_length (rev (lstrip s))) as H1.
  rewrite length_rev in H1.
  pose proof (lstrip_length s). lia.
Qed.

Lemma sep_if_length (cur sep : pystr) : (length (sep_if cur sep) <= length sep)%nat.
Proof. destruct cur; simpl; lia. Qed.

(** The state of the paragraph loop: every part emitted so far and the
    current part fit in [m] characters. *)
Definition parts_fit (m : nat) (acc : list pystr * pystr) : Prop :=
  forallb (fun p => (length p <=? m)%nat) (fst acc) = true /\
  (length (snd acc) <= m)%nat.

Lemma forallb_app_one {A : Type} (f : A -> bool) (l : list A) (x : A) :
  forallb f (l ++ [x]) = forallb f l && f x.
Proof. rewrite forallb_app. simpl. rewrite andb_true_r. reflexivity. Qed.

Lemma paragraph_step_fit (m : nat) (acc : list pystr * pystr) (p : pystr) :
  (length p <= m)%nat -> parts_fit m acc -> parts_fit m (paragraph_step m acc p).
Proof.
  destruct acc as [parts cur]. unfold parts_fit, paragraph_step. cbn [fst snd].
  intros Hp [Hparts Hcur].
  destruct (Nat.ltb_spec m (length p)) as [Hlt|_]; [lia|].
  destruct (Nat.ltb_spec m (length cur + length p + 2)) as [Hover|Hfit].
  - destruct cur as [|c cur']; cbn [fst snd]; rewrite forallb_app_one, Hparts; cbn [andb].
    + split.
      * apply Nat.leb_le. rewrite length_firstn. lia.
      * rewrite length_skipn. lia.
    + split; [| exact Hp].
      apply Nat.leb_le. pose proof (py_strip_length (c :: cur')). lia.
  - cbn [fst snd]. split; [exact Hparts|].
    rewrite !length_app. pose proof (sep_if_length cur [10; 10]). simpl in *. lia.
Qed.

Lemma fold_paragraph_fit (m : nat) (ps : list pystr) :
  forall acc, forallb (fun p => (length p <=? m)%nat) ps = true ->
  parts_fit m acc -> parts_fit m (fold_left (paragraph_step m) ps acc).
Proof.
  induction ps as [|p ps IH]; intros acc Hps Hacc; simpl; [exact Hacc|].
  simpl in Hps. apply andb_true_iff in Hps as [Hp Hps].
  apply IH; [exact Hps|]. apply paragraph_step_fit; [apply Nat.leb_le; exact Hp | exact Hacc].
Qed.

(** When no paragraph of the text (the pieces between ["\n\n"]) is
    longer than [max_length], every part [split_message] returns has at
    most [max_length] characters. *)
Theorem split_message_fits_when_paragraphs_fit (max_length : nat) (text : pystr)
  (H : forallb (fun p => (length p <=? max_length)%nat) (py_split [10; 10] text) = true) :
  forallb (fun part => (length part <=? max_length)%nat) (split_message max_length text) = true.
Proof.
  unfold split_message.
  destruct (Nat.leb_spec (length text) max_length) as [Hle|Hgt].
  - simpl. rewrite andb_true_r. apply Nat.leb_le. exact Hle.
  - pose proof (fold_paragraph_fit max_length (py_split [10; 10] text) ([], []) H) as Hf.
    destruct (fold_left (paragraph_step max_length) (py_split [10; 10] text) ([], []))
      as [parts cur].
    destruct Hf as [Hparts Hcur]; [split; simpl; [reflexivity | lia] |].
    simpl in Hparts, Hcur.
    destruct cur as [|c cur']; [exact Hparts|].
    rewrite forallb_app_one, Hparts. simpl.
    apply Nat.leb_le. pose proof (py_strip_length (c :: cur')). simpl in *. lia.
Qed.

Definition two_paragraphs : pystr := u "abcdef" ++ [10; 10] ++ u "ghijkl".

Lemma split_message_fits_when_paragraphs_fit_witness :
  forallb (fun p => (length p <=? 10)%nat) (py_split [10; 10] two_paragraphs) = true /\
  forallb (fun part => (length part <=? 10)%nat) (split_message 10 two_paragraphs) = true.
Proof.
  split; [vm_compute; reflexivity|].
  apply split_message_fits_when_paragraphs_fit. vm_compute. reflexivity.
Defined.

Lemma split_sep_absent (x : Z) (rest : pystr) (s : pystr) :
  forall fuel cur, ~ In x s -> (length s < fuel)%nat ->
  split_sep_aux fuel (x :: rest) s cur = [rev cur ++ s].
Proof.
  induction s as [|c s IH]; intros fuel cur Hx Hf; destruct fuel as [|f]; simpl in *; try lia.
  - rewrite app_nil_r. reflexivity.
  - destruct (Z.eqb_spec x c) as [->|Hne]; [exfalso; apply Hx; left; reflexivity|].
    simpl. rewrite IH by (try lia; intro; apply Hx; right; assumption).
    simpl. rewrite <- app_assoc. reflexivity.
Qed.

Lemma py_split_absent (x : Z) (rest s : pystr) :
  ~ In x s -> py_split (x :: rest) s = [s].
Proof.
  intro Hx. unfold py_split. rewrite split_sep_absent; auto.
Qed.

Lemma lstrip_spaces (n : nat) : lstrip (repeat 32 n) = [].
Proof. induction n as [|n IH]; simpl; [reflexivity | exact IH]. Qed.

Lemma in_repeat_32 (x : Z) (n : nat) : In x (repeat 32 n) -> x = 32.
Proof. intro H. apply repeat_spec in H. exact H. Qed.

(** A text of spaces only that is longer than [max_length] gives no part
    at all: the single sentence is empty once stripped and is skipped. *)
Theorem split_message_blank_text (max_length n : nat) (H : (max_length < n)%nat) :
  split_message max_length (repeat 32 n) = [].
Proof.
  unfold split_message. rewrite repeat_length.
  destruct (Nat.leb_spec n max_length) as [Hle|_]; [lia|].
  rewrite py_split_absent by (intro Hin; apply in_repeat_32 in Hin; discriminate).
  simpl. unfold paragraph_step. rewrite repeat_length.
  destruct (Nat.ltb_spec max_length n) as [_|Hge]; [|lia].
  rewrite py_split_absent by (intro Hin; apply in_repeat_32 in Hin; discriminate).
  simpl. unfold sentence_step, py_strip. rewrite lstrip_spaces. simpl. reflexivity.
Qed.

Lemma split_message_blank_text_witness :
  (3 < 5)%nat /\ split_message 3 (repeat 32 5) = [].
Proof. split; [lia | apply split_message_blank_text; lia]. Defined.

(* ------------------------------------------------------------------ *)
(** ** Callback data of the inline keyboards *)

Lemma decimal_value_in_cons (b : Z) (bs : list Z) (c : Z) :
  decimal_value_in (b :: bs) c =
  if (b <=? c) && (c <? b + 10) then Some (c - b) else decimal_value_in bs c.
Proof. reflexivity. Qed.

Lemma decimal_value_ascii (k : Z) : 0 <= k < 10 -> decimal_value (48 + k) = Some k.
Proof.
  intro Hk. unfold decimal_value, decimal_blocks. rewrite decimal_value_in_cons.
  replace ((48 <=? 48 + k) && (48 + k <? 48 + 10)) with true
    by (symmetry; apply andb_true_iff; split; [apply Z.leb_le | apply Z.ltb_lt]; lia).
  f_equal. lia.
Qed.

Lemma int_digits_z_digits (f : nat) :
  forall n acc b, 0 <= n -> (Z.to_nat n < f)%nat ->
  int_digits (z_digits f n acc) 0 b = int_digits acc n false.
Proof.
  induction f as [|f IH]; intros n acc b Hn Hf; [lia|].
  cbn [z_digits]. destruct (Z.ltb_spec n 10) as [Hlt|Hge].
  - cbn [int_digits]. destruct (Z.eqb_spec (48 + n) 95) as [He|_]; [lia|].
    rewrite decimal_value_ascii by lia. cbn [int_digits]. reflexivity.
  - assert (H1 : 0 <= n / 10) by (apply Z.div_pos; lia).
    assert (H2 : n / 10 < n) by (apply Z.div_lt; lia).
    rewrite IH by lia. cbn [int_digits].
    pose proof (Z.mod_pos_bound n 10 ltac:(lia)) as Hm.
    destruct (Z.eqb_spec (48 + n mod 10) 95) as [He|_]; [lia|].
    rewrite decimal_value_ascii by lia.
    rewrite (Z.div_mod n 10) at 3 by lia.
    f_equal. lia.
Qed.

Lemma z_digits_cons_ne (f : nat) : forall n x acc, z_digits f n (x :: acc) <> [].
Proof.
  induction f as [|f IH]; intros n x acc; simpl; [discriminate|].
  destruct (n <? 10); [discriminate | apply IH].
Qed.

Lemma z_digits_ne (f : nat) (n : Z) : z_digits (S f) n [] <> [].
Proof. simpl. destruct (n <? 10); [discriminate | apply z_digits_cons_ne]. Qed.

Definition is_digit (c : Z) : Prop := 48 <= c <= 57.

Lemma z_digits_digits (f : nat) :
  forall n acc, 0 <= n -> Forall is_digit acc -> Forall is_digit (z_digits f n acc).
Proof.
  unfold is_digit.
  induction f as [|f IH]; intros n acc Hn Hacc; cbn [z_digits]; [exact Hacc|].
  destruct (Z.ltb_spec n 10).
  - constructor; [lia | exact Hacc].
  - apply IH; [apply Z.div_pos; lia|].
    pose proof (Z.mod_pos_bound n 10 ltac:(lia)).
    constructor; [lia | exact Hacc].
Qed.

Lemma digit_not_space (c : Z) : is_digit c -> is_space c = false.
Proof.
  unfold is_digit. intro H.
  assert (c = 48 \/ c = 49 \/ c = 50 \/ c = 51 \/ c = 52 \/ c = 53 \/ c = 54
          \/ c = 55 \/ c = 56 \/ c = 57) by lia.
  repeat destruct H0 as [-> | H0]; try reflexivity. subst. reflexivity.
Qed.

Lemma lstrip_nonspace_head (c : Z) (s : pystr) :
  is_space c = false -> lstrip (c :: s) = c :: s.
Proof. intro H. simpl. rewrite H. reflexivity. Qed.

Lemma lstrip_nonspace (s : pystr) :
  Forall (fun c => is_space c = false) s -> lstrip s = s.
Proof.
  intro H. destruct s as [|c s]; [reflexivity|].
  apply lstrip_nonspace_head. inversion H. assumption.
Qed.

Lemma py_strip_nonspace (s : pystr) :
  Forall (fun c => is_space c = false) s -> py_strip s = s.
Proof.
  intro H. unfold py_strip.
  rewrite (lstrip_nonspace s H), lstrip_nonspace, rev_involutive; [reflexivity|].
  apply Forall_rev. exact H.
Qed.

Lemma digits_nonspace (s : pystr) :
  Forall is_digit s -> Forall (fun c => is_space c = false) s.
Proof. apply Forall_impl. exact digit_not_space. Qed.

(** [int(str(n)) == n] *)
Lemma py_int_str (n : Z) : py_int (py_str_int n) = Some n.
Proof.
  unfold py_str_int.
  destruct (Z.ltb_spec n 0) as [Hneg|Hpos].
  - set (D := z_digits (S (Z.to_nat (- n))) (- n) []).
    assert (HD : Forall is_digit D) by (apply z_digits_digits; [lia | constructor]).
    unfold py_int. rewrite py_strip_nonspace.
    + simpl. unfold D. rewrite int_digits_z_digits by lia. simpl. f_equal.
      destruct n; cbn; lia.
    + constructor; [reflexivity | apply digits_nonspace; exact HD].
  - set (D := z_digits (S (Z.to_nat n)) n []).
    assert (HD : Forall is_digit D) by (apply z_digits_digits; [lia | constructor]).
    assert (Hne : D <> []) by apply z_digits_ne.
    unfold py_int. rewrite py_strip_nonspace by (apply digits_nonspace; exact HD).
    destruct D as [|c r] eqn:E; [contradiction|].
    inversion HD as [|? ? Hc _]; subst. unfold is_digit in Hc.
    destruct (Z.eqb_spec c 45); [lia|]. destruct (Z.eqb_spec c 43); [lia|].
    rewrite <- E. unfold D. rewrite int_digits_z_digits by lia. simpl. f_equal.
    destruct n; cbn; lia.
Qed.

Lemma py_str_int_chars (n : Z) : Forall (fun c => c = 45 \/ is_digit c) (py_str_int n).
Proof.
  unfold py_str_int. destruct (Z.ltb_spec n 0).
  - constructor; [left; reflexivity|].
    eapply Forall_impl; [| apply z_digits_digits; [lia | constructor]]. intros; right; assumption.
  - eapply Forall_impl; [| apply z_digits_digits; [lia | constructor]]. intros; right; assumption.
Qed.

Lemma py_str_int_no_underscore (n : Z) : ~ In 95 (py_str_int n).
Proof.
  intro Hin. pose proof (py_str_int_chars n) as H.
  rewrite Forall_forall in H. destruct (H 95 Hin) as [E|E]; unfold is_digit in E; lia.
Qed.

Lemma prefixb_app (p s : pystr) : prefixb p (p ++ s) = true.
Proof. induction p as [|x p IH]; simpl; [reflexivity|]. rewrite Z.eqb_refl. exact IH. Qed.

Lemma split_service_data (ds : pystr) :
  ~ In 95 ds -> py_split [95] (u "service_" ++ ds) = [u "service"; ds].
Proof.
  intro H. unfold py_split.
  replace (u "service_") with [115; 101; 114; 118; 105; 99; 101; 95] by reflexivity.
  replace (S (length ([115; 101; 114; 118; 105; 99; 101; 95] ++ ds)))
    with (8 + S (length ds))%nat by (rewrite length_app; reflexivity).
  remember (S (length ds)) as k eqn:Hk.
  simpl. rewrite split_sep_absent by (auto; lia). reflexivity.
Qed.

Lemma service_callback_parsed (sid : Z) :
  dispatch_callback (u "service_" ++ py_str_int sid) = Some C_select_service /\
  select_service_id (u "service_" ++ py_str_int sid) = Some sid.
Proof.
  split.
  - unfold dispatch_callback, callback_filters, first_callback.
    rewrite prefixb_app. reflexivity.
  - unfold select_service_id. rewrite split_service_data by apply py_str_int_no_underscore.
    apply py_int_str.
Qed.

(** Every service button of [get_services_keyboard] is handled by
    [select_service], which reads back from its callback data exactly the
    id of the service shown on the button; the last button goes to
    [cancel_consultation]. *)
Theorem services_keyboard_callbacks (services : list (Z * pystr)) :
  map (fun b => (dispatch_callback (snd b), select_service_id (snd b)))
      (get_services_keyboard services)
  = map (fun e => (Some C_select_service, Some (fst e))) services
    ++ [(Some C_cancel_consultation, None)].
Proof.
  unfold get_services_keyboard. rewrite map_app, map_map. f_equal.
  1: apply map_ext; intros [sid nm]; cbn [snd fst];
     destruct (service_callback_parsed sid) as [-> ->]; reflexivity.
  all: vm_compute; reflexivity.
Qed.

(** Both buttons of the confirmation keyboard have a callback handler;
    none of the six buttons of the FAQ category keyboard that [btn_faq]
    sends has one, so a tap on them changes nothing and writes nothing. *)
Theorem faq_keyboard_unhandled :
  map (fun b => dispatch_callback (snd b)) get_confirmation_keyboard
    = [Some C_confirm_request; Some C_cancel_consultation] /\
  map (fun b => dispatch_callback (snd b)) get_faq_categories_keyboard = repeat None 6 /\
  (forall services today ne s uk ok b, In b get_faq_categories_keyboard ->
     bot_step services today ne s (UCallback (snd b) uk ok) = (s, None)).
Proof.
  split; [vm_compute; reflexivity|].
  split; [vm_compute; reflexivity|].
  intros services today ne s uk ok b Hb.
  simpl in Hb.
  repeat destruct Hb as [<- | Hb]; try contradiction; vm_compute; reflexivity.
Qed.

(* ------------------------------------------------------------------ *)
(** ** Text messages under the router order of main.py *)

Lemma bot_message_keep_or_clear (today : date) (ne : bool) (s : fsm) (text : pystr) :
  bot_message today ne s text = s \/ bot_message today ne s text = cleared.
Proof.
  unfold bot_message, dispatch_message. cbn [dispatch_in].
  destruct (basic_router_total (cursor s) text) as [h Hh]. rewrite Hh.
  destruct (first_handler_in _ _ _ _ Hh) as [f Hin].
  unfold basic_router in Hin. simpl in Hin.
  repeat destruct Hin as [Hin | Hin]; try contradiction;
    injection Hin as _ <-; simpl; auto.
Qed.

(** [/start], [/cancel] and the buttons "Отмена" and "Главное меню"
    clear the FSM storage in every state of the dialogue. *)
Theorem escape_messages_clear_state (today : date) (ne : bool) (s : fsm) :
  bot_message today ne s (u "/start") = cleared /\
  bot_message today ne s (u "/cancel") = cleared /\
  bot_message today ne s btn_cancel_text = cleared /\
  bot_message today ne s btn_main_menu_text = cleared.
Proof.
  destruct s as [c d]. destruct c as [[]|]; vm_compute; repeat split.
Qed.

(** A text message either leaves the FSM storage as it is or clears it:
    no message ever moves the dialogue forward. In particular the button
    "📅 Записаться на консультацию" reaches [handle_text_message], never
    [start_consultation]. *)
Theorem messages_never_advance_dialogue (today : date) (ne : bool) (s : fsm)
  (text : pystr) :
  (bot_message today ne s text = s \/ bot_message today ne s text = cleared) /\
  dispatch_message (cursor s) book_button = Some H_handle_text_message.
Proof.
  split; [apply bot_message_keep_or_clear|].
  destruct (cursor s) as [[]|]; vm_compute; reflexivity.
Qed.

Definition no_name_yet (s : fsm) : Prop :=
  (cursor s = None \/ cursor s = Some entering_name) /\ fd_name (data s) = None.

Lemma bot_step_no_name (services : Z -> option pystr) (today : date) (ne : bool)
  (s : fsm) (upd : bot_update) :
  no_name_yet s ->
  no_name_yet (fst (bot_step services today ne s upd)) /\
  snd (bot_step services today ne s upd) = None.
Proof.
  intros [Hc Hn]. destruct upd as [text | cb uk ok]; simpl.
  - split; [|reflexivity].
    destruct (bot_message_keep_or_clear today ne s text) as [-> | ->];
      [split; assumption | split; [left|]; reflexivity].
  - destruct (dispatch_callback cb) as [[| |]|]; simpl.
    + destruct (select_service_id cb) as [sid|]; simpl; [|split; [split|]; auto].
      unfold select_service. destruct (services sid); simpl;
        split; [split; [auto | assumption] | reflexivity | split | ]; auto.
    + unfold confirm_request. destruct s as [c [sid snm nm ph pd di cm]].
      simpl in Hn, Hc. subst nm. simpl.
      destruct uk; simpl; [destruct sid, ph|]; simpl; split; try split; auto.
    + split; [split; [left|]|]; reflexivity.
    + split; [split|]; auto.
Qed.

Lemma bot_run_no_name (services : Z -> option pystr) (today : date) (ne : bool)
  (us : list bot_update) :
  forall s, no_name_yet s ->
  no_name_yet (fst (bot_run services today ne s us)) /\
  snd (bot_run services today ne s us) = [].
Proof.
  induction us as [|upd us IH]; intros s Hs; simpl; [split; [assumption | reflexivity]|].
  destruct (bot_step_no_name services today ne s upd Hs) as [H1 H2].
  destruct (bot_step services today ne s upd) as [s1 r]. simpl in H1, H2. subst r.
  destruct (IH s1 H1) as [H3 H4].
  destruct (bot_run services today ne s1 us) as [s2 rs]. simpl in *. subst rs.
  split; [assumption | reflexivity].
Qed.

(** Starting from empty storage, no sequence of messages and button taps
    ever writes a consultation request: the name is never stored, so
    [confirm_request] always ends in its error branch, and the state
    stays unset or [entering_name]. *)
Theorem no_consultation_request_written (services : Z -> option pystr) (today : date)
  (ne : bool) (us : list bot_update) :
  snd (bot_run services today ne cleared us) = [] /\
  (cursor (fst (bot_run services today ne cleared us)) = None \/
   cursor (fst (bot_run services today ne cleared us)) = Some entering_name).
Proof.
  destruct (bot_run_no_name services today ne us cleared) as [[Hc _] Hr];
    [split; [left|]; reflexivity|].
  split; assumption.
Qed.

(* ------------------------------------------------------------------ *)
(** ** The answer of the language model *)

Lemma length_pos_ne {A : Type} (l : list A) : (0 < length l)%nat -> l <> [].
Proof. destruct l; simpl; [lia | discriminate]. Qed.

(** A reply of [generate_response] is never empty and, cut at 3500
    characters plus the 48 characters of the note, never longer than 3548
    characters: [handle_text_message] sends it whole, as one message,
    and calls no fallback. *)
Theorem llm_reply_sent_whole (st : clinic_settings)
  (api : pystr -> pystr -> option pystr) (prompt : pystr)
  (service : option service_view) (history : list hist_msg) (r : pystr)
  (H : generate_response st api prompt service history = Some r)
  (user_known : bool) (choice : list pystr -> pystr) :
  (length r <= 3548)%nat /\
  handle_text_message None user_known (Some r) choice prompt =
    [EGetUser] ++ (if user_known then [] else [ECreateUser]) ++
    [EReadHistory; EReadServices; ELlmCall prompt; ESend r; EChatLog prompt r].
Proof.
  assert (Hr : r <> [] /\ (length r <= 3548)%nat).
  { unfold generate_response in H.
    destruct (build_prompt st prompt service history) as [[sp um]|]; [|discriminate].
    destruct (option_map py_strip (api sp um)) as [[|c rest]|]; try discriminate.
    assert (Hn : length truncation_note = 48%nat) by (vm_compute; reflexivity).
    revert H.
    destruct (Nat.ltb_spec 3500 (length (c :: rest))) as [Hl|Hl]; intro H.
    - assert (E : r = firstn 3500 (c :: rest) ++ truncation_note) by congruence. subst r.
      rewrite length_app, length_firstn, Hn. split; [|lia].
      apply length_pos_ne. rewrite length_app, Hn. lia.
    - assert (E : r = c :: rest) by congruence. subst r.
      split; [discriminate | lia]. }
  destruct Hr as [Hne Hlen]. split; [exact Hlen|].
  assert (Ht : truthy (Some r) = true) by (destruct r; [contradiction | reflexivity]).
  assert (Hq : question_response choice (Some r) prompt = r)
    by (destruct r; [contradiction | reflexivity]).
  assert (Hs : split_message 4096 r = [r]).
  { unfold split_message. rewrite (proj2 (Nat.leb_le _ _)) by lia. reflexivity. }
  unfold handle_text_message. rewrite Hq, Ht, Hs. reflexivity.
Qed.

Lemma llm_reply_sent_whole_witness :
  generate_response (mksettings (u "Клиника") (u "+70000000000") (u "info@clinic.ru")
                       (u "clinic.ru"))
    (fun _ _ => Some (u "  Здравствуйте!  ")) (u "Цена?")
    (Some (mkservice_view (u "Ринопластика") (u "100000") (u "2 часа"))) []
  = Some (u "Здравствуйте!") /\
  (length (u "Здравствуйте!") <= 3548)%nat /\
  handle_text_message None false (Some (u "Здравствуйте!")) (fun _ => []) (u "Цена?") =
    [EGetUser] ++ [ECreateUser] ++
    [EReadHistory; EReadServices; ELlmCall (u "Цена?"); ESend (u "Здравствуйте!");
     EChatLog (u "Цена?") (u "Здравствуйте!")].
Proof.
  assert (H : generate_response (mksettings (u "Клиника") (u "+70000000000")
                (u "info@clinic.ru") (u "clinic.ru"))
                (fun _ _ => Some (u "  Здравствуйте!  ")) (u "Цена?")
                (Some (mkservice_view (u "Ринопластика") (u "100000") (u "2 часа"))) []
              = Some (u "Здравствуйте!")) by (vm_compute; reflexivity).
  split; [exact H|].
  exact (llm_reply_sent_whole _ _ _ _ _ _ H false (fun _ => [])).
Defined.

Lemma py_last_all {A : Type} (k : nat) (l : list A) : (length l <= k)%nat -> py_last k l = l.
Proof. intro H. unfold py_last. replace (length l - k)%nat with 0%nat by lia. reflexivity. Qed.

Lemma py_last_app {A : Type} (k : nat) (X Y : list A) :
  (k <= length Y)%nat -> py_last k (X ++ Y) = py_last k Y.
Proof.
  intro H. unfold py_last. rewrite length_app, skipn_app.
  rewrite (skipn_all2 X) by lia. simpl.
  f_equal. lia.
Qed.

Definition log_entries (log : chat_log) : list hist_msg :=
  mkhist (u "user") (log_message log)
  :: (if truthy (Some (log_response log))
      then [mkhist (u "assistant") (log_response log)] else []).

Lemma chat_history_of_short (h : list chat_log) :
  (length h <= 6)%nat -> chat_history_of h = flat_map log_entries (rev h).
Proof.
  intro H. destruct h as [|l h]; [reflexivity|].
  unfold chat_history_of. rewrite py_last_all by exact H. reflexivity.
Qed.

(** The prompt shows the last three entries of the history built from
    the five newest chat logs. When the newest log has a non-empty
    response, these come from the two newest logs only: the older three
    logs read from the database never reach the model. *)
Theorem prompt_sees_two_newest_logs (st : clinic_settings) (text : pystr)
  (service : option service_view) (logs : list chat_log)
  (H : match logs with l :: _ => log_response l <> [] | [] => True end) :
  build_prompt st text service (chat_history_of (get_user_logs logs 5))
  = build_prompt st text service (chat_history_of (firstn 2 logs)).
Proof.
  assert (Hlast : py_last 3 (chat_history_of (get_user_logs logs 5))
                  = py_last 3 (chat_history_of (firstn 2 logs))).
  { unfold get_user_logs.
    destruct logs as [|l0 [|l1 rest]]; [reflexivity | reflexivity |].
    rewrite !chat_history_of_short
      by (rewrite length_firstn; lia).
    simpl firstn. cbn [rev]. rewrite <- !app_assoc. cbn [app].
    rewrite !flat_map_app.
    assert (H0 : flat_map log_entries [l1; l0] = log_entries l1 ++ log_entries l0)
      by (simpl; rewrite app_nil_r; reflexivity).
    rewrite H0. apply py_last_app.
    rewrite length_app. unfold log_entries.
    destruct (log_response l0) as [|c r]; [contradiction|]. simpl. lia. }
  unfold build_prompt. destruct service; [|reflexivity]. rewrite Hlast. reflexivity.
Qed.

Lemma prompt_sees_two_newest_logs_witness :
  build_prompt (mksettings (u "Клиника") (u "+70000000000") (u "info@clinic.ru")
                  (u "clinic.ru"))
    (u "А сколько стоит?") (Some (mkservice_view (u "Ринопластика") (u "100000") (u "2 часа")))
    (chat_history_of (get_user_logs
       [mklog (u "Когда?") (u "В будни."); mklog (u "Где?") [];
        mklog (u "Привет") (u "Здравствуйте!")] 5))
  = build_prompt (mksettings (u "Клиника") (u "+70000000000") (u "info@clinic.ru")
                    (u "clinic.ru"))
    (u "А сколько стоит?") (Some (mkservice_view (u "Ринопластика") (u "100000") (u "2 часа")))
    (chat_history_of (firstn 2
       [mklog (u "Когда?") (u "В будни."); mklog (u "Где?") [];
        mklog (u "Привет") (u "Здравствуйте!")])).
Proof.
  apply prompt_sees_two_newest_logs. intro E. vm_compute in E. discriminate E.
Defined.

(* ------------------------------------------------------------------ *)
(** ** Sending a list of texts *)

Lemma send_loop_first (o : nat -> send_outcome) (t : pystr) (f a : nat) :
  exists rest, snd (send_loop o t (S f) a) = SendAnswer t :: rest.
Proof.
  simpl. destruct (o a) as [| ra | | msg |].
  - eexists; reflexivity.
  - destruct (send_loop o t f (S a)); eexists; reflexivity.
  - destruct (send_loop o t f (S a)); destruct (a <? 2)%nat; eexists; reflexivity.
  - unfold bad_request_branch.
    destruct (py_contains (u "message is too long") msg && (4000 <? length t)%nat);
      [destruct (o (S a))|]; eexists; reflexivity.
  - eexists; reflexivity.
Qed.

Lemma send_all_result (outcomes : nat -> nat -> send_outcome) (texts : list pystr) :
  forall i success,
  fst (send_all outcomes i texts success) = true <->
  success = true /\
  (forall j t, nth_error texts j = Some t ->
     fst (safe_send_message (outcomes (i + j)%nat) t) = true).
Proof.
  induction texts as [|t ts IH]; intros i success; simpl.
  - split; [intro H; split; [exact H | intros [|j] t' Hj; discriminate Hj] | tauto].
  - destruct (safe_send_message (outcomes i) t) as [ok evs] eqn:E.
    pose proof (IH (S i) (if ok then success else false)) as IHs.
    destruct (send_all outcomes (S i) ts (if ok then success else false)) as [b rest].
    simpl in IHs |- *. rewrite IHs. split.
    + intros [Hs Hall]. destruct ok; [|discriminate]. split; [exact Hs|].
      intros [|j] t' Hj; simpl in Hj.
      * injection Hj as <-. rewrite Nat.add_0_r, E. reflexivity.
      * replace (i + S j)%nat with (S (i + j)) by lia. apply Hall. exact Hj.
    + intros [Hs Hall].
      assert (Hok : ok = true).
      { specialize (Hall 0%nat t eq_refl). rewrite Nat.add_0_r, E in Hall. exact Hall. }
      subst ok. split; [exact Hs|].
      intros j t' Hj. replace (S (i + j)) with (i + S j)%nat by lia.
      apply Hall. exact Hj.
Qed.

Lemma send_all_texts (outcomes : nat -> nat -> send_outcome) (texts : list pystr) :
  forall i success, texts_started (snd (send_all outcomes i texts success)) = texts.
Proof.
  induction texts as [|t ts IH]; intros i success; simpl; [reflexivity|].
  destruct (send_loop_first (outcomes i) t 2 0) as [r0 Hr0].
  destruct (safe_send_message (outcomes i) t) as [ok evs] eqn:E.
  unfold safe_send_message, max_retries in E. rewrite E in Hr0. simpl in Hr0. subst evs.
  specialize (IH (S i) (if ok then success else false)).
  destruct (send_all outcomes (S i) ts (if ok then success else false)) as [b rest].
  simpl in IH |- *. destruct ok; simpl; rewrite IH; reflexivity.
Qed.

(** [safe_send_messages] tries every text, in order, also after a
    failure, and reports success exactly when every [safe_send_message]
    call succeeded. *)
Theorem safe_send_messages_spec (outcomes : nat -> nat -> send_outcome)
  (texts : list pystr) :
  (fst (safe_send_messages outcomes texts) = true <->
   forall i t, nth_error texts i = Some t ->
     fst (safe_send_message (outcomes i) t) = true) /\
  texts_started (snd (safe_send_messages outcomes texts)) = texts.
Proof.
  split; [|apply send_all_texts].
  unfold safe_send_messages. rewrite send_all_result. simpl. tauto.
Qed.

(* ------------------------------------------------------------------ *)
(** ** The consultation handlers in sequence *)

(** Called one after the other, as the dialogue intends them, for a user
    already in the database, the handlers of consultation_handlers.py
    collect a request that [confirm_request] writes, with the stripped
    name, the phone with a leading 8 turned into +7, no date for
    "любое время", an empty comment and status "new"; [skip_comment]
    shows the confirmation. The state is cleared, yet the only answer is
    the error alert: [edit_text] raises after the row is written. *)
Theorem dialogue_handlers_write_request (services : Z -> option pystr) (today : date)
  (s : fsm) (sid : Z) (nm name phone dtxt : pystr)
  (Hs : services sid = Some nm)
  (Hname : (2 <= length (py_strip name))%nat)
  (Hphone : phone_re_match (remove_seps (py_strip phone)) = true)
  (Hdate : existsb (pystr_eqb (py_lower (py_strip dtxt))) any_time_phrases = true) :
  let s1 := fst (select_service services sid s) in
  let s2 := fst (process_name s1 name) in
  let s3 := fst (process_phone s2 phone) in
  let s4 := fst (process_date today s3 dtxt) in
  snd (skip_comment s4) = [RConfirmation (data (fst (skip_comment s4)))] /\
  confirm_request true true (fst (skip_comment s4)) =
    (cleared, [RRequestError],
     Some (mkrequest sid (py_strip name)
             (let p := py_strip phone in
              match p with 56 :: rest => [43; 55] ++ rest | _ => p end)
             None [] (u "new"))).
Proof.
  cbv zeta. unfold select_service. rewrite Hs. cbn [fst data].
  unfold process_name. destruct (Nat.ltb_spec (length (py_strip name)) 2); [lia|].
  cbn [fst data cursor fd_service_id fd_service_name fd_name fd_phone
       fd_preferred_date fd_date_input fd_comment].
  unfold process_phone. rewrite Hphone. cbn [negb fst data cursor fd_service_id
    fd_service_name fd_name fd_phone fd_preferred_date fd_date_input fd_comment].
  unfold process_date. rewrite Hdate. split; reflexivity.
Qed.

Lemma dialogue_handlers_write_request_witness :
  confirm_request true true
    (fst (skip_comment
      (fst (process_date (mkdate 2026 10 18)
        (fst (process_phone
          (fst (process_name
            (fst (select_service (fun sid => if sid =? 3 then Some (u "Ринопластика") else None)
                    3 cleared))
            (u " Иван ")))
          (u "8 (912) 345-67-89")))
        (u "Любое время")))))
  = (cleared, [RRequestError],
     Some (mkrequest 3 (u "Иван") (u "+7 (912) 345-67-89") None [] (u "new"))).
Proof.
  exact (proj2 (dialogue_handlers_write_request
    (fun sid => if sid =? 3 then Some (u "Ринопластика") else None) (mkdate 2026 10 18)
    cleared 3 (u "Ринопластика") (u " Иван ") (u "8 (912) 345-67-89") (u "Любое время")
    eq_refl
    ltac:(apply Nat.leb_le; vm_compute; reflexivity)
    ltac:(vm_compute; reflexivity)
    ltac:(vm_compute; reflexivity))).
Defined.

(* ------------------------------------------------------------------ *)
(** ** The consultation request table *)

Lemma requests_get_update (tbl : list stored_request) (rid : Z) (status : pystr) :
  requests_get (fst (update_status tbl rid status)) rid
  = option_map (fun r => with_status r status) (requests_get tbl rid).
Proof.
  unfold update_status, requests_get. simpl.
  induction tbl as [|x tbl IH]; simpl; [reflexivity|].
  destruct (Z.eqb_spec (sr_id x) rid); simpl.
  - rewrite (proj2 (Z.eqb_eq _ _) e). reflexivity.
  - destruct (Z.eqb_spec (sr_id x) rid); [contradiction|]. exact IH.
Qed.

Lemma update_map_missing (tbl : list stored_request) (rid : Z) (status : pystr) :
  requests_get tbl rid = None ->
  map (fun r => if sr_id r =? rid then with_status r status else r) tbl = tbl.
Proof.
  unfold requests_get. induction tbl as [|x tbl IH]; simpl; [reflexivity|].
  destruct (sr_id x =? rid); [discriminate|]. intro H. rewrite IH by exact H. reflexivity.
Qed.

(** [update_request_status] with an id no row has: the table is left as
    it is and the endpoint answers 404. *)
Theorem update_request_status_missing (tbl : list stored_request) (rid : Z)
  (status : pystr) (H : requests_get tbl rid = None) :
  update_request_status tbl rid status = (tbl, None).
Proof.
  unfold update_request_status.
  pose proof (requests_get_update tbl rid status) as Hg. rewrite H in Hg.
  unfold update_status in *. simpl in Hg. rewrite Hg.
  rewrite update_map_missing by exact H. reflexivity.
Qed.

Lemma update_request_status_missing_witness :
  requests_get [mkstored 1 (mkrequest 2 (u "Иван") (u "+79123456789") None [] (u "new"))] 7
    = None /\
  update_request_status
    [mkstored 1 (mkrequest 2 (u "Иван") (u "+79123456789") None [] (u "new"))] 7 (u "done")
  = ([mkstored 1 (mkrequest 2 (u "Иван") (u "+79123456789") None [] (u "new"))], None).
Proof.
  split; [reflexivity|]. apply update_request_status_missing. reflexivity.
Defined.

(** [update_request_status] with an existing id: the endpoint answers
    with the new status, the row [session.get] returns carries it, and
    every row with another id is kept unchanged. *)
Theorem update_request_status_found (tbl : list stored_request) (rid : Z)
  (status : pystr) (r : stored_request) (H : requests_get tbl rid = Some r) :
  snd (update_request_status tbl rid status) = Some status /\
  requests_get (fst (update_request_status tbl rid status)) rid = Some (with_status r status) /\
  (forall r', sr_id r' <> rid ->
     In r' (fst (update_request_status tbl rid status)) <-> In r' tbl).
Proof.
  pose proof (requests_get_update tbl rid status) as Hg. rewrite H in Hg.
  assert (Hf : fst (update_request_status tbl rid status) = fst (update_status tbl rid status))
    by (unfold update_request_status; destruct (update_status tbl rid status); reflexivity).
  split; [|split].
  - unfold update_request_status. unfold update_status in *. simpl in Hg |- *.
    rewrite Hg. reflexivity.
  - rewrite Hf. exact Hg.
  - intros r' Hne. rewrite Hf. unfold update_status. simpl. rewrite in_map_iff. split.
    + intros [x [Hx Hin]]. destruct (Z.eqb_spec (sr_id x) rid).
      * subst r'. unfold with_status in Hne. simpl in Hne. contradiction.
      * subst r'. exact Hin.
    + intro Hin. exists r'. split; [|exact Hin].
      destruct (Z.eqb_spec (sr_id r') rid); [contradiction | reflexivity].
Qed.

Lemma update_request_status_found_witness :
  snd (update_request_status
         [mkstored 1 (mkrequest 2 (u "Иван") (u "+79123456789") None [] (u "new"))] 1
         (u "done")) = Some (u "done") /\
  requests_get (fst (update_request_status
         [mkstored 1 (mkrequest 2 (u "Иван") (u "+79123456789") None [] (u "new"))] 1
         (u "done"))) 1
    = Some (mkstored 1 (mkrequest 2 (u "Иван") (u "+79123456789") None [] (u "done"))) /\
  (forall r', sr_id r' <> 1 ->
     In r' (fst (update_request_status
         [mkstored 1 (mkrequest 2 (u "Иван") (u "+79123456789") None [] (u "new"))] 1
         (u "done")))
     <-> In r' [mkstored 1 (mkrequest 2 (u "Иван") (u "+79123456789") None [] (u "new"))]).
Proof.
  exact (update_request_status_found
           [mkstored 1 (mkrequest 2 (u "Иван") (u "+79123456789") None [] (u "new"))]
           1 (u "done")
           (mkstored 1 (mkrequest 2 (u "Иван") (u "+79123456789") None [] (u "new")))
           eq_refl).
Defined.
